(** * efm-langserver: the diagnostic production pipeline of [langserver/handler.go]

    A shallow embedding of the language-server handler: the path/URI
    normalizer ([isWindowsDrivePath], [isWindowsDriveURI], [fromURI],
    [toURI]), the document store ([openFile], [updateFile], [closeFile],
    [saveFile], [configFor]), the lint pipeline ([lint]) and the dispatcher
    ([linter]), followed by the properties of the specification.

    Conventions.
    - A Go [string] is a sequence of bytes: Rocq's [string] (8-bit [ascii]).
    - Go's [int] is taken at its 64-bit width; arithmetic wraps ([int_wrap]).
    - A Go map is a [gmap]; reading an absent key yields the zero value.
    - A nil slice is [None], a non-nil slice [Some l].
    - Everything the handler calls outside the repository (net/url,
      path/filepath, os/exec, errorformat, encoding/json) is a [Variable] of
      the section that embeds the handler.  Module [GoLib] gives executable
      models of those libraries, used to run the handler on concrete inputs. *)

From Stdlib Require Import ZArith Ascii String List Lia Bool.
From stdpp Require Import base option list strings gmap.

Local Open Scope string_scope.
Local Open Scope Z_scope.

(** ** Go's [int] *)

Definition int_min : Z := - 2 ^ 63.
Definition int_max : Z := 2 ^ 63 - 1.

Definition int_range (z : Z) : Prop := int_min <= z <= int_max.

(** Two's-complement reduction of a mathematical integer into [int]. *)
Definition int_wrap (z : Z) : Z := (z + 2 ^ 63) mod 2 ^ 64 - 2 ^ 63.

Definition int_sub (a b : Z) : Z := int_wrap (a - b).

(** ** Byte strings *)

Definition byte_eqb (a b : ascii) : bool := Ascii.eqb a b.

Definition str_eqb (a b : string) : bool := String.eqb a b.

Arguments byte_eqb : simpl never.
Arguments str_eqb : simpl never.

(** [len(s)] *)
Definition len (s : string) : Z := Z.of_nat (String.length s).

(** [s[i]] for an index known to be in range; [None] is Go's index panic. *)
Definition index (s : string) (i : nat) : option ascii := String.get i s.

(** [s[1:]] *)
Definition tail1 (s : string) : string :=
  match s with
  | EmptyString => EmptyString
  | String _ r => r
  end.

Fixpoint str_map (f : ascii -> ascii) (s : string) : string :=
  match s with
  | EmptyString => EmptyString
  | String c r => String (f c) (str_map f r)
  end.

(** [strings.HasPrefix(s, p)] *)
Fixpoint HasPrefix (s p : string) {struct p} : bool :=
  match p, s with
  | EmptyString, _ => true
  | String _ _, EmptyString => false
  | String c p', String d s' => byte_eqb c d && HasPrefix s' p'
  end.

(** [strings.Split(s, "\n")]: never empty, [Split "" = [""]]. *)
Fixpoint Split_lines (s : string) : list string :=
  match s with
  | EmptyString => [EmptyString]
  | String c r =>
      if byte_eqb c "010"%char then EmptyString :: Split_lines r
      else match Split_lines r with
           | h :: t => String c h :: t
           | [] => [String c EmptyString]
           end
  end.

(** [unicode.IsLetter(rune(b))] for a byte [b]: the rune is the Latin-1 code
    point U+00[b], and the letters of Latin-1 are A-Z, a-z, U+00AA, U+00B5,
    U+00BA, U+00C0-U+00D6, U+00D8-U+00F6 and U+00F8-U+00FF. *)
Definition IsLetter (b : ascii) : bool :=
  let n := Z.of_N (N_of_ascii b) in
  ((65 <=? n) && (n <=? 90)) || ((97 <=? n) && (n <=? 122))
  || (n =? 170) || (n =? 181) || (n =? 186)
  || ((192 <=? n) && (n <=? 214)) || ((216 <=? n) && (n <=? 246))
  || ((248 <=? n) && (n <=? 255)).

(** ** [url.URL], restricted to the fields the handler and its callers touch *)

Record URL : Type := mkURL {
  Scheme : string;
  Opaque : string;
  Host : string;
  Path : string;
  RawQuery : string
}.

Definition withPath (u : URL) (p : string) : URL :=
  {| Scheme := Scheme u; Opaque := Opaque u; Host := Host u;
     Path := p; RawQuery := RawQuery u |}.

Inductive uri_error : Type :=
| ErrParse                          (* error of url.ParseRequestURI *)
| ErrNotFile (scheme : string).     (* "only file URIs are supported, got %v" *)

(** ** Path/URI normalizer *)

Definition isWindowsDrivePath (path : string) : bool :=
  if len path <? 4 then false
  else match index path 0, index path 1 with
       | Some c0, Some c1 => IsLetter c0 && byte_eqb c1 ":"%char
       | _, _ => false
       end.

Definition isWindowsDriveURI (uri : string) : bool :=
  if len uri <? 4 then false
  else match index uri 0, index uri 1, index uri 2 with
       | Some c0, Some c1, Some c2 =>
           byte_eqb c0 "/"%char && IsLetter c1 && byte_eqb c2 ":"%char
       | _, _, _ => false
       end.

Section PathURI.
(** [runtime.GOOS == "windows"] *)
Variable windows : bool.
(** [url.ParseRequestURI]; [None] is its error. *)
Variable ParseRequestURI : string -> option URL.

(** [filepath.ToSlash]: replaces [filepath.Separator] by '/', which is the
    identity where the separator already is '/'. *)
Definition ToSlash (path : string) : string :=
  if windows
  then str_map (fun c => if byte_eqb c "\"%char then "/"%char else c) path
  else path.

Definition fromURI (uri : string) : string + uri_error :=
  match ParseRequestURI uri with
  | None => inr ErrParse
  | Some u =>
      if negb (str_eqb (Scheme u) "file") then inr (ErrNotFile (Scheme u))
      else
        let u := if isWindowsDriveURI (Path u)
                 then withPath u (tail1 (Path u)) else u in
        inl (Path u)
  end.

Definition toURI (path : string) : URL :=
  let path := if isWindowsDrivePath path then "/" ++ path else path in
  {| Scheme := "file"; Opaque := ""; Host := ""; Path := ToSlash path;
     RawQuery := "" |}.
End PathURI.

(** ** Data model *)

Record Config : Type := mkConfig {
  LintErrorFormats : option (list string);   (* []string, nil when unset *)
  LintStdin : bool;
  LintOffset : Z;
  LintCommand : string
}.

(** [Config{}] *)
Definition Config_zero : Config :=
  {| LintErrorFormats := None; LintStdin := false; LintOffset := 0;
     LintCommand := "" |}.

Definition withLintErrorFormats (v : Config) (fs : option (list string)) : Config :=
  {| LintErrorFormats := fs; LintStdin := LintStdin v;
     LintOffset := LintOffset v; LintCommand := LintCommand v |}.

(** [len] of a slice; a nil slice has length 0. *)
Definition slice_len {A} (s : option (list A)) : Z :=
  match s with
  | None => 0
  | Some l => Z.of_nat (length l)
  end.

(** The elements a [range] loop visits. *)
Definition slice_elems {A} (s : option (list A)) : list A := default [] s.

Record File : Type := mkFile {
  LanguageId : string;
  Text : string
}.

(** [errorformat.Match], the fields read by the handler. *)
Record Match_ : Type := mkMatch {
  F : string;
  L : Z;
  C : Z;
  M : string
}.

Definition withF (m : Match_) (f : string) : Match_ :=
  {| F := f; L := L m; C := C m; M := M m |}.

Definition withC (m : Match_) (c : Z) : Match_ :=
  {| F := F m; L := L m; C := c; M := M m |}.

Record Position : Type := mkPosition {
  Line : Z;
  Character : Z
}.

Record Range : Type := mkRange {
  Start : Position;
  End_ : Position
}.

Record Diagnostic : Type := mkDiagnostic {
  Range_ : Range;
  Message : string;
  Severity : Z
}.

(** An unbuffered [chan string]: the values offered by the goroutines that
    are blocked in a send, in the order they arrived, and whether the channel
    has been closed.  A send returns only when the receiver takes the value. *)
Record chan : Type := mkChan {
  sendq : list string;
  closed : bool
}.

Definition chan_send (c : chan) (v : string) : chan :=
  {| sendq := sendq c ++ [v]; closed := closed c |}.

Record langHandler : Type := mkHandler {
  configs : gmap string Config;
  files : gmap string File;
  request : chan
}.

Definition withFiles (h : langHandler) (fs : gmap string File) : langHandler :=
  {| configs := configs h; files := fs; request := request h |}.

Definition withRequest (h : langHandler) (c : chan) : langHandler :=
  {| configs := configs h; files := files h; request := c |}.

(** What the handler writes to [os.Stderr]. *)
Inductive log_msg : Type :=
| LogDocumentNotFound
| LogURIError (e : uri_error)
| LogErrorformatError
| LogSucceeded (text : string).

(** The effects of the dispatcher, in the order they happen. *)
Inductive event : Type :=
| EvStderr (msg : log_msg)
| EvExec (argv : list string) (stdin : option string)
| EvNotify (uri : string) (diagnostics : option (list Diagnostic)).

Inductive handler_error : Type :=
| ErrInvalidParams
| ErrUnmarshal
| ErrDocumentNotFound (uri : string).

(** [DidOpenTextDocumentParams]: the fields read by the handler. *)
Record DidOpenTextDocumentParams : Type := mkDidOpen {
  URI : string;
  LanguageID : string;
  DocText : string
}.

(** ** Document store *)

Definition configFor (h : langHandler) (uri : string) : Config :=
  match files h !! uri with
  | None => Config_zero
  | Some f => default Config_zero (configs h !! LanguageId f)
  end.

Definition closeFile (h : langHandler) (uri : string)
  : langHandler * option handler_error :=
  (withFiles h (delete uri (files h)), None).

Definition saveFile (h : langHandler) (uri : string)
  : langHandler * option handler_error :=
  (withRequest h (chan_send (request h) uri), None).

Definition openFile (h : langHandler) (uri languageId : string)
  : langHandler * option handler_error :=
  let f := {| LanguageId := languageId; Text := "" |} in
  (withFiles h (<[uri := f]> (files h)), None).

Definition updateFile (h : langHandler) (uri text : string)
  : langHandler * option handler_error :=
  match files h !! uri with
  | None => (h, Some (ErrDocumentNotFound uri))
  | Some f =>
      let f := {| LanguageId := LanguageId f; Text := text |} in
      let h := withFiles h (<[uri := f]> (files h)) in
      (withRequest h (chan_send (request h) uri), None)
  end.

(** ** The lint pipeline and the request handlers *)

(** The state of one server: the handler, the dispatcher goroutine started by
    [NewHandler], and the effects performed so far. *)
Inductive worker : Type :=
| WRecv                                   (* blocked in [<-h.request] *)
| WLint (uri : string)                    (* evaluating [h.lint(uri)] *)
| WNotify (uri : string) (diagnostics : option (list Diagnostic))
                                          (* about to call [h.conn.Notify] *)
| WExit.                                  (* left the loop *)

Record system : Type := mkSystem {
  hdl : langHandler;
  wrk : worker;
  trace : list event
}.

Section Handler.
(** [runtime.GOOS == "windows"] *)
Variable windows : bool.
(** [strings.ToLower] *)
Variable ToLower : string -> string.
(** [filepath.Abs]; [None] is its error. *)
Variable Abs : string -> option string.
(** [url.ParseRequestURI]; [None] is its error. *)
Variable ParseRequestURI : string -> option URL.
(** [errorformat.Efm], [errorformat.NewEfm] and the method [Match]: the
    pattern matcher is a black box that compiles one pattern string and
    matches one line. *)
Variable Efm : Type.
Variable NewEfm : string -> option Efm.
Variable Match : Efm -> string -> option Match_.
(** [exec.Command(argv...)] followed by [cmd.CombinedOutput()], with
    [cmd.Stdin] set or left nil: the captured bytes and whether the error
    is nil (the command ran and exited with status zero). *)
Variable CombinedOutput : list string -> option string -> string * bool.
(** [json.Unmarshal] into [DidOpenTextDocumentParams]. *)
Variable Unmarshal : string -> option DidOpenTextDocumentParams.

(** [errorformat.NewErrorformat]: compiles the patterns one by one, in
    order, and fails when one of them fails. *)
Definition NewErrorformat (efms : option (list string)) : option (list Efm) :=
  mapM NewEfm (slice_elems efms).

(** The document path as [lint] compares it: lines 120-123. *)
Definition normalize (path : string) : string :=
  let path := ToSlash windows path in
  if windows then ToLower path else path.

(** Lines 154-158: the file of a match after the placeholder step. *)
Definition matchFile (config : Config) (fname : string) (m : Match_) : string :=
  if LintStdin config && (str_eqb (F m) "stdin" || str_eqb (F m) "-")
  then fname
  else ToSlash windows (F m).

(** Lines 150-180: the body of the inner loop, for one line and one
    pattern; [continue] returns the slice unchanged. *)
Definition lintMatch (config : Config) (fname : string)
    (diagnostics : list Diagnostic) (line : string) (ef : Efm)
  : list Diagnostic :=
  match Match ef line with
  | None => diagnostics
  | Some m =>
      let m := withF m (matchFile config fname m) in
      let m := if C m =? 0 then withC m 1 else m in
      match Abs (F m) with
      | None => diagnostics
      | Some path =>
          let path := ToSlash windows path in
          let path := if windows then ToLower path else path in
          if negb (str_eqb path fname) then diagnostics
          else
            let pos :=
              {| Line := int_sub (int_sub (L m) 1) (LintOffset config);
                 Character := int_sub (C m) 1 |} in
            diagnostics ++
              [ {| Range_ := {| Start := pos; End_ := pos |};
                   Message := M m;
                   Severity := 1 |} ]
      end
  end.

(** The platform shell running the configured command: lines 134-139. *)
Definition shell (command : string) : list string :=
  if windows then ["cmd"; "/c"; command] else ["sh"; "-c"; command].

(** [h.lint(uri)]: the effects of the run and the returned slice. *)
Definition lint (h : langHandler) (uri : string)
  : list event * option (list Diagnostic) :=
  match files h !! uri with
  | None => ([EvStderr LogDocumentNotFound], None)
  | Some f =>
      match fromURI ParseRequestURI uri with
      | inr err => ([EvStderr (LogURIError err)], None)
      | inl fname =>
          let fname := normalize fname in
          let config := configFor h uri in
          match NewErrorformat (LintErrorFormats config) with
          | None => ([EvStderr LogErrorformatError], None)
          | Some efms =>
              let diagnostics : list Diagnostic := [] in
              let argv := shell (LintCommand config) in
              let stdin := if LintStdin config then Some (Text f) else None in
              let '(b, ok) := CombinedOutput argv stdin in
              if ok
              then ([EvExec argv stdin; EvStderr (LogSucceeded (Text f))],
                    Some diagnostics)
              else
                ([EvExec argv stdin],
                 Some (fold_left
                         (fun diagnostics line =>
                            fold_left
                              (fun diagnostics ef =>
                                 lintMatch config fname diagnostics line ef)
                              efms diagnostics)
                         (Split_lines b) diagnostics))
          end
      end
  end.

(** [textDocument/didOpen]; [params] is [req.Params]. *)
Definition handleTextDocumentDidOpen (h : langHandler) (params : option string)
  : langHandler * option handler_error :=
  match params with
  | None => (h, Some ErrInvalidParams)
  | Some raw =>
      match Unmarshal raw with
      | None => (h, Some ErrUnmarshal)
      | Some p =>
          let '(h, _) := openFile h (URI p) (LanguageID p) in
          match updateFile h (URI p) (DocText p) with
          | (h, Some err) => (h, Some err)
          | (h, None) => (h, None)
          end
      end
  end.

(** One step of the goroutine running [h.linter()].  Which of several
    blocked senders a receive takes is left open.

    Two things the source can do are outside this relation.  The field
    [h.conn] is not part of [langHandler]: the relation describes a handler
    whose connection has been set (by the initialize request, whose handler
    is not among these sources); on a handler fresh from [NewHandler], where
    [h.conn] is nil, line 98 panics instead of taking [step_notify].  And
    [step_lint] takes the result of [CombinedOutput] as given: a command
    that never returns (the source sets no timeout) keeps the goroutine in
    [WLint] for ever, a behaviour the relation has no state for. *)
Inductive linter_step : system -> system -> Prop :=
| step_recv h tr q1 uri q2 cl :
    request h = {| sendq := q1 ++ uri :: q2; closed := cl |} ->
    linter_step
      {| hdl := h; wrk := WRecv; trace := tr |}
      {| hdl := withRequest h {| sendq := q1 ++ q2; closed := cl |};
         wrk := WLint uri; trace := tr |}
| step_closed h tr :
    request h = {| sendq := []; closed := true |} ->
    linter_step
      {| hdl := h; wrk := WRecv; trace := tr |}
      {| hdl := h; wrk := WExit; trace := tr |}
| step_lint h tr uri :
    linter_step
      {| hdl := h; wrk := WLint uri; trace := tr |}
      {| hdl := h; wrk := WNotify uri (snd (lint h uri));
         trace := tr ++ fst (lint h uri) |}
| step_notify h tr uri ds :
    linter_step
      {| hdl := h; wrk := WNotify uri ds; trace := tr |}
      {| hdl := h; wrk := WRecv; trace := tr ++ [EvNotify uri ds] |}.

(** [h.linter()] run for at most [n] iterations of its loop, receiving
    from the senders in arrival order; as for [linter_step], the connection
    is supposed set and every command started is supposed to return. *)
Fixpoint linter (n : nat) (s : system) : system :=
  match n with
  | O => s
  | S n' =>
      match wrk s, sendq (request (hdl s)) with
      | WRecv, uri :: q =>
          let h := withRequest (hdl s)
                     {| sendq := q; closed := closed (request (hdl s)) |} in
          let '(evs, ds) := lint h uri in
          linter n' {| hdl := h; wrk := WRecv;
                       trace := trace s ++ evs ++ [EvNotify uri ds] |}
      | WRecv, [] =>
          if closed (request (hdl s))
          then {| hdl := hdl s; wrk := WExit; trace := trace s |}
          else s
      | _, _ => s
      end
  end.

(** [NewHandler]: the loop over the configurations, then the handler with
    its dispatcher started ([h.conn] is set later, by the initialize
    request).  [for _, v := range configs] binds [v] to a copy of each map
    value; the body assigns to a field of that copy, which does not reach
    the map. *)
Definition NewHandler (configs : gmap string Config) : system :=
  let _ :=
    map_fold
      (fun (_ : string) (v : Config) (_ : unit) =>
         let v :=
           if bool_decide (LintErrorFormats v = None)
              || (slice_len (LintErrorFormats v) =? -1)
           then withLintErrorFormats v (Some ["%f:%l:%m"; "%f:%l:%c:%m"])
           else v in
         tt)
      tt configs in
  {| hdl := {| configs := configs; files := ∅;
               request := {| sendq := []; closed := false |} |};
     wrk := WRecv;
     trace := [] |}.
End Handler.

(** ** Method dispatch *)

(** [jsonrpc2.Request]: the fields read by the handler. *)
Record Request : Type := mkRequest {
  Method : string;
  Params : option string
}.

(** The error returned by [handle]: the error of a request handler, or the
    [jsonrpc2.Error] with code [CodeMethodNotFound] and its message. *)
Inductive handle_error : Type :=
| ErrHandler (e : handler_error)
| ErrMethodNotFound (message : string).

Section Handle.
Variable Unmarshal : string -> option DidOpenTextDocumentParams.
(** The request handlers defined in other files of the package; each may
    change the handler and return an error. *)
Variable handleInitialize : langHandler -> Request -> langHandler * option handle_error.
Variable handleShutdown : langHandler -> Request -> langHandler * option handle_error.
Variable handleTextDocumentDidChange :
  langHandler -> Request -> langHandler * option handle_error.
Variable handleTextDocumentDidSave :
  langHandler -> Request -> langHandler * option handle_error.
Variable handleTextDocumentDidClose :
  langHandler -> Request -> langHandler * option handle_error.

(** [h.handle(ctx, conn, req)]: the [switch] on [req.Method]. *)
Definition handle (h : langHandler) (req : Request)
  : langHandler * option handle_error :=
  if str_eqb (Method req) "initialize" then handleInitialize h req
  else if str_eqb (Method req) "shutdown" then handleShutdown h req
  else if str_eqb (Method req) "textDocument/didOpen" then
    let '(h, err) := handleTextDocumentDidOpen Unmarshal h (Params req) in
    (h, option_map ErrHandler err)
  else if str_eqb (Method req) "textDocument/didChange"
  then handleTextDocumentDidChange h req
  else if str_eqb (Method req) "textDocument/didSave"
  then handleTextDocumentDidSave h req
  else if str_eqb (Method req) "textDocument/didClose"
  then handleTextDocumentDidClose h req
  else (h, Some (ErrMethodNotFound ("method not supported: " ++ Method req))).
End Handle.

(** ** Executable models of the libraries the handler calls

    They stand for the Go standard library and for
    github.com/haya14busa/errorformat when the handler is run on concrete
    inputs; the general theorems do not depend on them. *)
Module GoLib.

Definition is_digit (c : ascii) : bool :=
  let n := Z.of_N (N_of_ascii c) in (48 <=? n) && (n <=? 57).

Definition is_alpha (c : ascii) : bool :=
  let n := Z.of_N (N_of_ascii c) in
  ((65 <=? n) && (n <=? 90)) || ((97 <=? n) && (n <=? 122)).

(** [strings.ToLower] on the ASCII letters; other bytes are kept. *)
Definition ToLower (s : string) : string :=
  str_map (fun c =>
             let n := N_of_ascii c in
             if ((65 <=? n) && (n <=? 90))%N then ascii_of_N (n + 32) else c) s.

(** *** strconv.Atoi on a string of decimal digits, its error dropped: the
    value, or the largest [int] when the value does not fit. *)
Definition Atoi (s : string) : Z :=
  let v := fold_left (fun acc c => 10 * acc + (Z.of_N (N_of_ascii c) - 48))
                     (list_ascii_of_string s) 0 in
  if v <=? int_max then v else int_max.

(** *** net/url *)

Definition hex_digit (n : N) : ascii :=
  nth (N.to_nat n) (list_ascii_of_string "0123456789ABCDEF") "0"%char.

Definition unhex (c : ascii) : option N :=
  let n := N_of_ascii c in
  if ((48 <=? n) && (n <=? 57))%N then Some (n - 48)%N
  else if ((97 <=? n) && (n <=? 102))%N then Some (n - 97 + 10)%N
  else if ((65 <=? n) && (n <=? 70))%N then Some (n - 65 + 10)%N
  else None.

(** [shouldEscape(c, encodePath)] *)
Definition shouldEscape (c : ascii) : bool :=
  if is_alpha c || is_digit c then false
  else if existsb (byte_eqb c) (list_ascii_of_string "-_.~") then false
  else if existsb (byte_eqb c) (list_ascii_of_string "$&+,/:;=@") then false
  else true.

(** [escape(s, encodePath)] *)
Fixpoint escape (s : string) : string :=
  match s with
  | EmptyString => EmptyString
  | String c r =>
      if shouldEscape c
      then String "%" (String (hex_digit (N_of_ascii c / 16))
                         (String (hex_digit (N_of_ascii c mod 16)) (escape r)))
      else String c (escape r)
  end.

(** [unescape(s, encodePath)]; [None] is an [EscapeError]. *)
Fixpoint unescape (s : string) : option string :=
  match s with
  | EmptyString => Some EmptyString
  | String c r =>
      if byte_eqb c "%"%char then
        match r with
        | String a (String b r') =>
            match unhex a, unhex b, unescape r' with
            | Some x, Some y, Some t => Some (String (ascii_of_N (16 * x + y)) t)
            | _, _, _ => None
            end
        | _ => None
        end
      else option_map (String c) (unescape r)
  end.

(** A byte that is neither a control byte nor '?': what [escape] writes. *)
Definition plain (c : ascii) : bool :=
  let n := N_of_ascii c in
  negb ((n <? 32) || (n =? 127))%N && negb (byte_eqb c "?"%char).

(** [getScheme]: [Some (scheme, rest)], or [None] for "missing protocol
    scheme".  [acc] is the prefix read so far, [raw] the whole input. *)
Fixpoint getScheme_loop (raw acc s : string) : option (string * string) :=
  match s with
  | EmptyString => Some (EmptyString, raw)
  | String c r =>
      if is_alpha c then getScheme_loop raw (acc ++ String c EmptyString) r
      else if is_digit c || existsb (byte_eqb c) (list_ascii_of_string "+-.")
      then if str_eqb acc "" then Some (EmptyString, raw)
           else getScheme_loop raw (acc ++ String c EmptyString) r
      else if byte_eqb c ":"%char
      then if str_eqb acc "" then None else Some (acc, r)
      else Some (EmptyString, raw)
  end.

Definition getScheme (raw : string) : option (string * string) :=
  getScheme_loop raw EmptyString raw.

(** [strings.Cut(s, sep)] for a one-byte separator: the text before the
    first separator and the text after it. *)
Fixpoint cut_at (sep : ascii) (s : string) : string * string :=
  match s with
  | EmptyString => (EmptyString, EmptyString)
  | String c r =>
      if byte_eqb c sep then (EmptyString, r)
      else let '(a, b) := cut_at sep r in (String c a, b)
  end.

(** The text before the first '/', and the rest starting at that '/'. *)
Fixpoint split_authority (s : string) : string * string :=
  match s with
  | EmptyString => (EmptyString, EmptyString)
  | String c r =>
      if byte_eqb c "/"%char then (EmptyString, s)
      else let '(a, b) := split_authority r in (String c a, b)
  end.

Definition containsCTLByte (s : string) : bool :=
  existsb (fun c => let n := N_of_ascii c in ((n <? 32) || (n =? 127))%N)
          (list_ascii_of_string s).

(** [url.ParseRequestURI].  User information and the validation of the
    host are left out: the authority is taken as the host as it stands, so
    that the model parses a URI such as "file://a b/tmp/a.c", which net/url
    refuses for its host.  The runs below use it only on URIs with an empty
    authority. *)
Definition ParseRequestURI (rawURL : string) : option URL :=
  if containsCTLByte rawURL then None
  else if str_eqb rawURL "" then None
  else if str_eqb rawURL "*" then Some (mkURL "" "" "" "*" "")
  else
    match getScheme rawURL with
    | None => None
    | Some (scheme, rest) =>
        let scheme := ToLower scheme in
        let '(rest, query) := cut_at "?"%char rest in
        if negb (HasPrefix rest "/") then
          if negb (str_eqb scheme "") then Some (mkURL scheme rest "" "" query)
          else None
        else
          let '(host, rest) :=
            if negb (str_eqb scheme "") && HasPrefix rest "//"
            then split_authority (tail1 (tail1 rest))
            else (EmptyString, rest) in
          match unescape rest with
          | None => None
          | Some path => Some (mkURL scheme "" host path query)
          end
    end.

(** [String] of [url.URL] for a URL without user information, fragment and
    raw path; the host is written as it stands. *)
Definition URL_String (u : URL) : string :=
  let scheme := if str_eqb (Scheme u) "" then "" else Scheme u ++ ":" in
  let body :=
    if negb (str_eqb (Opaque u) "") then Opaque u
    else
      let auth :=
        if negb (str_eqb (Scheme u) "") || negb (str_eqb (Host u) "")
        then (if negb (str_eqb (Host u) "") || negb (str_eqb (Path u) "")
              then "//" else "") ++ Host u
        else "" in
      let path := if str_eqb (Path u) "*" then "*" else escape (Path u) in
      let sep :=
        if negb (str_eqb path "") && negb (HasPrefix path "/")
           && negb (str_eqb (Host u) "")
        then "/" else "" in
      let dot :=
        if str_eqb (scheme ++ auth ++ sep) ""
           && existsb (byte_eqb ":"%char)
                (list_ascii_of_string (fst (cut_at "/"%char path)))
        then "./" else "" in
      auth ++ sep ++ dot ++ path in
  let query := if str_eqb (RawQuery u) "" then "" else "?" ++ RawQuery u in
  scheme ++ body ++ query.

(** *** path/filepath where the separator is '/' *)

Fixpoint split_on (sep : ascii) (s : string) : list string :=
  match s with
  | EmptyString => [EmptyString]
  | String c r =>
      if byte_eqb c sep then EmptyString :: split_on sep r
      else match split_on sep r with
           | h :: t => String c h :: t
           | [] => [String c EmptyString]
           end
  end.

Fixpoint join_with (sep : string) (l : list string) : string :=
  match l with
  | [] => EmptyString
  | [x] => x
  | x :: t => x ++ sep ++ join_with sep t
  end.

(** The elements kept by [filepath.Clean], last element first: empty and
    "." elements go, ".." removes the element before it, is dropped at the
    root and is kept at the start of a relative path. *)
Definition clean_elem (rooted : bool) (stack : list string) (e : string)
  : list string :=
  if str_eqb e "" || str_eqb e "." then stack
  else if str_eqb e ".." then
    match stack with
    | top :: below =>
        if str_eqb top ".." then e :: stack else below
    | [] => if rooted then [] else [e]
    end
  else e :: stack.

(** [filepath.Clean] *)
Definition Clean (path : string) : string :=
  let rooted := HasPrefix path "/" in
  let elems := rev (fold_left (clean_elem rooted) (split_on "/"%char path) []) in
  let out := (if rooted then "/" else "") ++ join_with "/" elems in
  if str_eqb out "" then "." else out.

(** [filepath.Abs] in the working directory [wd]; [wd = None] is the
    failure of [os.Getwd]. *)
Definition Abs (wd : option string) (path : string) : option string :=
  if HasPrefix path "/" then Some (Clean path)
  else match wd with
       | None => None
       | Some wd =>
           if str_eqb path "" then Some (Clean wd)
           else Some (Clean (wd ++ "/" ++ path))
       end.

(** *** errorformat, for the patterns made of the items %f, %l, %c, %m,
    the escape %% and literal bytes

    A pattern is compiled to an anchored regular expression: %f is
    [(?:[[:alpha:]]:)?(?:\\ |[^ ])+?], %l and %c are [\d+], %m is [.+].
    The match is the one a backtracking matcher finds first. *)
Inductive item : Type :=
| ItemF | ItemL | ItemC | ItemM
| ItemLit (c : ascii).

Definition Efm : Type := list item.

(** The model answers [Some] only on the patterns it covers, and there as
    errorformat does.  [None] stands for everything else, which is not
    always an error of errorformat: another item (such as %t, which
    errorformat compiles), a backslash (which errorformat drops before the
    byte it escapes) and a pattern that ends in a lone % (on which
    errorformat panics). *)
Fixpoint NewEfm (efm : string) : option Efm :=
  match efm with
  | EmptyString => Some []
  | String c r =>
      if byte_eqb c "%"%char then
        match r with
        | String k r' =>
            let it :=
              if byte_eqb k "f"%char then Some ItemF
              else if byte_eqb k "l"%char then Some ItemL
              else if byte_eqb k "c"%char then Some ItemC
              else if byte_eqb k "m"%char then Some ItemM
              else if byte_eqb k "%"%char then Some (ItemLit "%"%char)
              else None in
            match it, NewEfm r' with
            | Some i, Some t => Some (i :: t)
            | _, _ => None
            end
        | EmptyString => None
        end
      else if byte_eqb c (ascii_of_nat 92) then None
      else option_map (cons (ItemLit c)) (NewEfm r)
  end.

(** The non-empty prefixes of [s] whose bytes satisfy [p], each with the
    text after it, shortest first. *)
Fixpoint prefixes (p : ascii -> bool) (s : string) : list (string * string) :=
  match s with
  | EmptyString => []
  | String c r =>
      if p c
      then (String c EmptyString, r)
           :: map (fun '(a, b) => (String c a, b)) (prefixes p r)
      else []
  end.

(** The ways [(?:\\ |[^ ])+?] matches at the start of [s], in the order a
    backtracking matcher tries them; [n] bounds the number of units. *)
Fixpoint file_units (n : nat) (s : string) : list (string * string) :=
  match n with
  | O => []
  | S n' =>
      let more (u rest : string) :=
        (u, rest) :: map (fun '(a, b) => (u ++ a, b)) (file_units n' rest) in
      match s with
      | EmptyString => []
      | String c r =>
          (match r with
           | String d r' =>
               if byte_eqb c "\"%char && byte_eqb d " "%char
               then more (String c (String d EmptyString)) r'
               else []
           | EmptyString => []
           end)
          ++ (if byte_eqb c " "%char then []
              else more (String c EmptyString) r)
      end
  end.

(** The ways the whole of %f matches at the start of [s]. *)
Definition file_splits (s : string) : list (string * string) :=
  (match s with
   | String a (String b r) =>
       if is_alpha a && byte_eqb b ":"%char
       then map (fun '(x, y) => (String a (String b x), y))
                (file_units (String.length r) r)
       else []
   | _ => []
   end)
  ++ file_units (String.length s) s.

Definition item_splits (i : item) (s : string) : list (string * string) :=
  match i with
  | ItemF => file_splits s
  | ItemL | ItemC => rev (prefixes is_digit s)
  | ItemM => rev (prefixes (fun c => negb (byte_eqb c "010"%char)) s)
  | ItemLit c =>
      match s with
      | String d r => if byte_eqb c d then [(EmptyString, r)] else []
      | EmptyString => []
      end
  end.

Definition store (i : item) (text : string) (m : Match_) : Match_ :=
  match i with
  | ItemF => withF m text
  | ItemL => {| F := F m; L := Atoi text; C := C m; M := M m |}
  | ItemC => withC m (Atoi text)
  | ItemM => {| F := F m; L := L m; C := C m; M := text |}
  | ItemLit _ => m
  end.

Fixpoint first_some {A B} (f : A -> option B) (l : list A) : option B :=
  match l with
  | [] => None
  | x :: t => match f x with Some y => Some y | None => first_some f t end
  end.

Fixpoint match_items (efm : Efm) (s : string) (m : Match_) : option Match_ :=
  match efm with
  | [] => if str_eqb s "" then Some m else None
  | i :: rest =>
      first_some (fun '(text, s') => match_items rest s' (store i text m))
                 (item_splits i s)
  end.

Definition Match (efm : Efm) (s : string) : option Match_ :=
  match_items efm s {| F := ""; L := 0; C := 0; M := "" |}.
End GoLib.

(** ** The contribution of one output line and one pattern, as a value

    [lintMatch] either leaves the slice alone or appends one diagnostic;
    [diagnosticOf] is that diagnostic ([lintMatch_diagnosticOf] relates the
    two). *)
Section DiagnosticOf.
Variable windows : bool.
Variable ToLower : string -> string.
Variable Abs : string -> option string.
Variable Efm : Type.
Variable Match : Efm -> string -> option Match_.

(** The position and message of the diagnostic built from a match. *)
Definition diagnosticAt (config : Config) (m : Match_) : Diagnostic :=
  let c := if C m =? 0 then 1 else C m in
  let pos := {| Line := int_sub (int_sub (L m) 1) (LintOffset config);
                Character := int_sub c 1 |} in
  {| Range_ := {| Start := pos; End_ := pos |};
     Message := M m;
     Severity := 1 |}.

(** The same-document filter of lines 162-172 on the file of a match. *)
Definition sameDocument (fname file : string) : bool :=
  match Abs file with
  | None => false
  | Some path => str_eqb (normalize windows ToLower path) fname
  end.

Definition diagnosticOf (config : Config) (fname line : string) (ef : Efm)
  : option Diagnostic :=
  match Match ef line with
  | None => None
  | Some m =>
      if sameDocument fname (matchFile windows config fname m)
      then Some (diagnosticAt config m)
      else None
  end.

(** The diagnostics of a whole output, line by line and, within a line,
    pattern by pattern. *)
Definition diagnosticsOf (config : Config) (fname : string)
    (efms : list Efm) (b : string) : list Diagnostic :=
  concat (map (fun line => omap (diagnosticOf config fname line) efms)
              (Split_lines b)).

(** The reading of the specification, for comparison: for each line the
    first pattern that matches wins, and only its match is considered. *)
Definition firstMatchDiagnosticsOf (config : Config) (fname : string)
    (efms : list Efm) (b : string) : list Diagnostic :=
  omap (fun line =>
          match filter (fun ef => is_Some (Match ef line)) efms with
          | ef :: _ => diagnosticOf config fname line ef
          | [] => None
          end)
       (Split_lines b).
End DiagnosticOf.

(** ** The handler on a POSIX host, with the library models *)
Module Posix.
Section Run.
(** The working directory of the server. *)
Variable wd : option string.
(** What each command would print, and whether it exits with status 0. *)
Variable CombinedOutput : list string -> option string -> string * bool.
Variable Unmarshal : string -> option DidOpenTextDocumentParams.

Definition fromURI : string -> string + uri_error :=
  fromURI GoLib.ParseRequestURI.

Definition lint : langHandler -> string -> list event * option (list Diagnostic) :=
  lint false GoLib.ToLower (GoLib.Abs wd) GoLib.ParseRequestURI
       GoLib.Efm GoLib.NewEfm GoLib.Match CombinedOutput.

Definition linter : nat -> system -> system :=
  linter false GoLib.ToLower (GoLib.Abs wd) GoLib.ParseRequestURI
         GoLib.Efm GoLib.NewEfm GoLib.Match CombinedOutput.

Definition linter_step : system -> system -> Prop :=
  linter_step false GoLib.ToLower (GoLib.Abs wd) GoLib.ParseRequestURI
              GoLib.Efm GoLib.NewEfm GoLib.Match CombinedOutput.

Definition handleTextDocumentDidOpen
  : langHandler -> option string -> langHandler * option handler_error :=
  handleTextDocumentDidOpen Unmarshal.
End Run.

(** A lint command that always fails, printing [output]; the empty
    command prints nothing and succeeds, as [sh -c ""] does. *)
Definition failing (command output : string)
    (argv : list string) (stdin : option string) : string * bool :=
  if bool_decide (argv = ["sh"; "-c"; command]) then (output, false)
  else ("", bool_decide (argv = ["sh"; "-c"; ""])).

(** A handler with one open document of language "c", as it stands after
    the initialize request and one didOpen. *)
Definition handlerWith (config : Config) (uri text : string) : langHandler :=
  {| configs := {[ "c" := config ]};
     files := {[ uri := {| LanguageId := "c"; Text := text |} ]};
     request := {| sendq := []; closed := false |} |}.

(** A command that prints [output] and exits with status zero. *)
Definition succeeding (output : string)
    (argv : list string) (stdin : option string) : string * bool :=
  (output, true).

Definition at_ (line character : Z) (message : string) : Diagnostic :=
  let pos := {| Line := line; Character := character |} in
  {| Range_ := {| Start := pos; End_ := pos |};
     Message := message; Severity := 1 |}.
End Posix.

(** ** The dispatcher with two pending requests for one document

    The send queue, the state of the dispatcher and the effects performed,
    from the moment two senders wait with the same [uri] to the moment both
    requests are served; [run] is what [lint] returns for [uri]. *)
Definition twoRuns (uri : string) (tr : list event)
    (run : list event * option (list Diagnostic))
  : list (list string * worker * list event) :=
  let evs := fst run in
  let pub := [EvNotify uri (snd run)] in
  [ ([uri; uri], WRecv, tr);
    ([uri], WLint uri, tr);
    ([uri], WNotify uri (snd run), tr ++ evs);
    ([uri], WRecv, (tr ++ evs) ++ pub);
    ([], WLint uri, (tr ++ evs) ++ pub);
    ([], WNotify uri (snd run), ((tr ++ evs) ++ pub) ++ evs);
    ([], WRecv, (((tr ++ evs) ++ pub) ++ evs) ++ pub) ]%list.

(** ** Inputs on which the handler is run *)
Module Example.
Import Posix.

Definition wd : option string := Some "/work".
Definition uri : string := "file:///tmp/a.c".

Definition config (formats : list string) (stdin : bool) (offset : Z) : Config :=
  {| LintErrorFormats := Some formats; LintStdin := stdin;
     LintOffset := offset; LintCommand := "lint" |}.

(** Both built-in patterns, configured explicitly. *)
Definition bothPatterns : Config := config ["%f:%l:%m"; "%f:%l:%c:%m"] false 0.

(** A configuration that leaves the patterns unset. *)
Definition unsetPatterns : Config :=
  {| LintErrorFormats := None; LintStdin := false; LintOffset := 0;
     LintCommand := "lint" |}.

(** A configuration with patterns and no command. *)
Definition noCommand : Config :=
  {| LintErrorFormats := Some ["%f:%l:%m"]; LintStdin := false;
     LintOffset := 0; LintCommand := "" |}.

(** A handler whose only document has a language without configuration. *)
Definition unregistered : langHandler :=
  {| configs := ∅;
     files := {[ uri := {| LanguageId := "go"; Text := "package main" |} ]};
     request := {| sendq := []; closed := false |} |}.

(** A handler after two updates of its document, none of them received by
    the dispatcher yet. *)
Definition twoPending : langHandler :=
  let h := handlerWith (config ["%f:%l:%m"] false 0) uri "" in
  let h := fst (updateFile h uri "int") in
  fst (updateFile h uri "int x").

(** A decoder that knows one didOpen message (written without its quotes). *)
Definition didOpenMessage : string := "{textDocument: a.c}".

Definition Unmarshal (raw : string) : option DidOpenTextDocumentParams :=
  if str_eqb raw didOpenMessage
  then Some {| URI := uri; LanguageID := "c"; DocText := "int x" |}
  else None.

Definition empty : langHandler :=
  {| configs := ∅; files := ∅;
     request := {| sendq := []; closed := false |} |}.

(** The patterns of a configuration, compiled by the errorformat model. *)
Definition efmsOf (c : Config) : list GoLib.Efm :=
  default [] (NewErrorformat GoLib.Efm GoLib.NewEfm (LintErrorFormats c)).

Definition document : File := {| LanguageId := "c"; Text := "int x" |}.

Definition open (c : Config) : langHandler := handlerWith c uri "int x".
Definition otherURI : string := "file:///tmp/b.c".

(** A handler whose request channel has been closed. *)
Definition closedHandler : langHandler :=
  withRequest empty {| sendq := []; closed := true |}.


Definition hoverRequest : Request :=
  {| Method := "textDocument/hover"; Params := None |}.

(** Stands for a request handler defined in another file of the package. *)
Definition otherHandler (h : langHandler) (req : Request)
  : langHandler * option handle_error := (h, None).

Definition handle : langHandler -> Request -> langHandler * option handle_error :=
  handle Unmarshal otherHandler otherHandler otherHandler otherHandler
         otherHandler.
End Example.

(** * Properties *)

Local Open Scope list_scope.

(** ** Go's [int] arithmetic *)

Lemma int_wrap_range z : int_range (int_wrap z).
Proof.
  unfold int_range, int_wrap, int_min, int_max.
  pose proof (Z.mod_pos_bound (z + 2 ^ 63) (2 ^ 64) ltac:(lia)). lia.
Qed.

Lemma int_wrap_id z : int_range z -> int_wrap z = z.
Proof.
  unfold int_range, int_wrap, int_min, int_max. intros Hz.
  rewrite Z.mod_small; lia.
Qed.

Lemma int_sub_sub a b c : int_sub (int_sub a b) c = int_wrap (a - b - c).
Proof.
  unfold int_sub, int_wrap. f_equal.
  replace ((a - b + 2 ^ 63) mod 2 ^ 64 - 2 ^ 63 - c + 2 ^ 63)
    with ((a - b + 2 ^ 63) mod 2 ^ 64 - c) by lia.
  rewrite Zminus_mod_idemp_l. f_equal. lia.
Qed.

(** ** Strings *)

Lemma str_eqb_eq a b : str_eqb a b = true <-> a = b.
Proof. apply String.eqb_eq. Qed.

Lemma str_eqb_neq a b : str_eqb a b = false <-> a <> b.
Proof. apply String.eqb_neq. Qed.

Lemma byte_eqb_eq a b : byte_eqb a b = true <-> a = b.
Proof. apply Ascii.eqb_eq. Qed.

Lemma Split_lines_nonempty s : Split_lines s <> [].
Proof. destruct s as [|c r]; simpl; [done|]. by repeat case_match. Qed.

(** ** The loops of [lint] *)

Section LintLoops.
Variable windows : bool.
Variable ToLower : string -> string.
Variable Abs : string -> option string.
Variable ParseRequestURI : string -> option URL.
Variable Efm : Type.
Variable NewEfm : string -> option Efm.
Variable Match : Efm -> string -> option Match_.
Variable CombinedOutput : list string -> option string -> string * bool.

Local Abbreviation lintMatch' := (lintMatch windows ToLower Abs Efm Match).
Local Abbreviation diagnosticOf' := (diagnosticOf windows ToLower Abs Efm Match).
Local Abbreviation diagnosticsOf' := (diagnosticsOf windows ToLower Abs Efm Match).
Local Abbreviation lint' :=
  (lint windows ToLower Abs ParseRequestURI Efm NewEfm Match CombinedOutput).

Lemma lintMatch_diagnosticOf config fname diagnostics line ef :
  lintMatch' config fname diagnostics line ef
  = diagnostics ++ option_list (diagnosticOf' config fname line ef).
Proof.
  unfold lintMatch, diagnosticOf, sameDocument,
    diagnosticAt, normalize.
  destruct (Match ef line) as [m|]; simpl; [|by rewrite app_nil_r].
  destruct (C m =? 0); simpl;
    (destruct (Abs (matchFile windows config fname m)) as [path|];
     simpl; [|by rewrite app_nil_r]);
    by (destruct (str_eqb _ fname); simpl; [|by rewrite app_nil_r]).
Qed.

Lemma lint_inner_loop config fname line efms diagnostics :
  fold_left (fun diagnostics ef => lintMatch' config fname diagnostics line ef)
            efms diagnostics
  = diagnostics ++ omap (diagnosticOf' config fname line) efms.
Proof.
  revert diagnostics.
  induction efms as [|ef efms IH]; intros diagnostics; simpl.
  - by rewrite app_nil_r.
  - rewrite IH, lintMatch_diagnosticOf, <- app_assoc. f_equal.
    by destruct (diagnosticOf' config fname line ef).
Qed.

Lemma lint_outer_loop config fname efms lines diagnostics :
  fold_left
    (fun diagnostics line =>
       fold_left (fun diagnostics ef => lintMatch' config fname diagnostics line ef)
                 efms diagnostics)
    lines diagnostics
  = diagnostics
      ++ concat (map (fun line => omap (diagnosticOf' config fname line) efms) lines).
Proof.
  revert diagnostics.
  induction lines as [|line lines IH]; intros diagnostics; simpl.
  - by rewrite app_nil_r.
  - by rewrite IH, lint_inner_loop, <- app_assoc.
Qed.

(** [lint'] once the document is found, its URI is a file URI and the
    patterns compile. *)
Lemma lint_run h uri f fname efms b ok :
  files h !! uri = Some f ->
  fromURI ParseRequestURI uri = inl fname ->
  NewErrorformat Efm NewEfm (LintErrorFormats (configFor h uri)) = Some efms ->
  CombinedOutput (shell windows (LintCommand (configFor h uri)))
                 (if LintStdin (configFor h uri) then Some (Text f) else None)
  = (b, ok) ->
  lint' h uri
  = (EvExec (shell windows (LintCommand (configFor h uri)))
            (if LintStdin (configFor h uri) then Some (Text f) else None)
       :: (if ok then [EvStderr (LogSucceeded (Text f))] else []),
     Some (if ok then []
           else diagnosticsOf' (configFor h uri) (normalize windows ToLower fname)
                              efms b)).
Proof.
  intros Hf Hu He Hc. unfold lint.
  rewrite Hf, Hu, He, Hc. destruct ok; [done|].
  by rewrite lint_outer_loop.
Qed.

(** Every non-nil result of [lint'] comes from such a run. *)
Lemma lint_Some h uri ds :
  snd (lint' h uri) = Some ds ->
  exists f fname efms b ok,
    files h !! uri = Some f
    /\ fromURI ParseRequestURI uri = inl fname
    /\ NewErrorformat Efm NewEfm (LintErrorFormats (configFor h uri)) = Some efms
    /\ CombinedOutput (shell windows (LintCommand (configFor h uri)))
                      (if LintStdin (configFor h uri) then Some (Text f) else None)
       = (b, ok)
    /\ ds = (if ok then []
             else diagnosticsOf' (configFor h uri)
                                (normalize windows ToLower fname) efms b).
Proof.
  intros Hs.
  destruct (files h !! uri) as [f|] eqn:Hf;
    [|by unfold lint in Hs; rewrite Hf in Hs].
  destruct (fromURI ParseRequestURI uri) as [fname|e] eqn:Hu;
    [|by unfold lint in Hs; rewrite Hf, Hu in Hs].
  destruct (NewErrorformat Efm NewEfm (LintErrorFormats (configFor h uri)))
    as [efms|] eqn:He;
    [|by unfold lint in Hs; rewrite Hf, Hu, He in Hs].
  destruct (CombinedOutput (shell windows (LintCommand (configFor h uri)))
              (if LintStdin (configFor h uri) then Some (Text f) else None))
    as [b ok] eqn:Hc.
  rewrite (lint_run h uri f fname efms b ok Hf Hu He Hc) in Hs.
  simpl in Hs. injection Hs as <-.
  by exists f, fname, efms, b, ok.
Qed.

(** A diagnostic of the result comes from one line and one pattern. *)
Lemma elem_of_diagnosticsOf config fname efms b d :
  d ∈ diagnosticsOf' config fname efms b <->
  exists line ef,
    line ∈ Split_lines b /\ ef ∈ efms
    /\ diagnosticOf' config fname line ef = Some d.
Proof.
  unfold diagnosticsOf. rewrite list_elem_of_In, in_concat.
  split.
  - intros (l & Hl & Hd). apply in_map_iff in Hl as (line & <- & Hline).
    apply list_elem_of_In, list_elem_of_omap in Hd as (ef & Hef & Hd).
    exists line, ef. by rewrite list_elem_of_In.
  - intros (line & ef & Hline & Hef & Hd).
    exists (omap (diagnosticOf' config fname line) efms). split.
    + apply in_map_iff. exists line. by rewrite <- list_elem_of_In.
    + apply list_elem_of_In, list_elem_of_omap. by exists ef.
Qed.

Lemma diagnosticOf_Some config fname line ef d :
  diagnosticOf' config fname line ef = Some d <->
  exists m path,
    Match ef line = Some m
    /\ Abs (matchFile windows config fname m) = Some path
    /\ normalize windows ToLower path = fname
    /\ d = diagnosticAt config m.
Proof.
  unfold diagnosticOf, sameDocument. split.
  - destruct (Match ef line) as [m|]; [|done].
    destruct (Abs _) as [path|] eqn:Ha; [|done].
    destruct (str_eqb _ fname) eqn:He; [|done].
    intros [= <-]. exists m, path. by apply str_eqb_eq in He.
  - intros (m & path & -> & -> & <- & ->).
    by rewrite (proj2 (str_eqb_eq _ _) eq_refl).
Qed.
End LintLoops.

(** ** Path/URI normalizer: the round trip *)

Lemma len_ge_4 s :
  (len s <? 4) = false ->
  exists a b c d r, s = String a (String b (String c (String d r))).
Proof.
  intros H. destruct s as [|a [|b [|c [|d r]]]]; try discriminate H.
  by exists a, b, c, d, r.
Qed.

Lemma len_cons_ge_4 a b c d r :
  (len (String a (String b (String c (String d r)))) <? 4) = false.
Proof. unfold len. simpl String.length. apply Z.ltb_ge. lia. Qed.

Lemma IsLetter_not_backslash c :
  IsLetter c = true ->
  (if byte_eqb c "\"%char then "/"%char else c) = c.
Proof.
  intros H. destruct (byte_eqb c "\"%char) eqn:E; [|done].
  apply byte_eqb_eq in E. subst c. discriminate H.
Qed.

Lemma ToSlash_posix path : ToSlash false path = path.
Proof. done. Qed.

Lemma ToSlash_slash windows path :
  ToSlash windows (String "/" path) = String "/" (ToSlash windows path).
Proof. by destruct windows. Qed.

Lemma HasPrefix_slash s :
  HasPrefix s "/" = true <-> exists r, s = String "/" r.
Proof.
  split.
  - destruct s as [|c r]; [done|]. simpl. rewrite andb_true_r.
    intros <-%byte_eqb_eq. by exists r.
  - by intros [r ->].
Qed.

Lemma ToSlash_HasPrefix_slash windows path :
  HasPrefix path "/" = true -> HasPrefix (ToSlash windows path) "/" = true.
Proof.
  intros [r ->]%HasPrefix_slash. by rewrite ToSlash_slash.
Qed.

(** A drive path keeps its drive prefix under [ToSlash], and "/" followed
    by it has the form [isWindowsDriveURI] looks for. *)
Lemma isWindowsDriveURI_of_drive_path windows path :
  isWindowsDrivePath path = true ->
  isWindowsDriveURI (String "/" (ToSlash windows path)) = true.
Proof.
  unfold isWindowsDrivePath. destruct (len path <? 4) eqn:Hlen; [done|].
  apply len_ge_4 in Hlen as (a & b & c & d & r & ->). simpl.
  intros [Ha Hb%byte_eqb_eq]%andb_prop. subst b.
  destruct windows; unfold ToSlash; simpl.
  - rewrite (IsLetter_not_backslash a Ha).
    unfold isWindowsDriveURI. rewrite len_cons_ge_4. simpl. by rewrite Ha.
  - unfold isWindowsDriveURI. rewrite len_cons_ge_4. simpl. by rewrite Ha.
Qed.

(** ** The net/url model writes and reads back the URL of [toURI] without loss *)

Section UrlModel.
Import GoLib.

Ltac all_bytes c :=
  destruct c as [[] [] [] [] [] [] [] []]; vm_compute; try done.

Lemma unescape_escape_byte c r :
  unescape (escape (String c r))
  = option_map (String c) (unescape (escape r)).
Proof.
  simpl. destruct (shouldEscape c) eqn:E.
  - assert (Hx : unhex (hex_digit (N_of_ascii c / 16)) = Some (N_of_ascii c / 16)%N)
      by (clear E; all_bytes c).
    assert (Hy : unhex (hex_digit (N_of_ascii c mod 16)) = Some (N_of_ascii c mod 16)%N)
      by (clear E; all_bytes c).
    assert (Hc : ascii_of_N (16 * (N_of_ascii c / 16) + N_of_ascii c mod 16) = c)
      by (clear E; all_bytes c).
    cbn [unescape]. change (byte_eqb "%" "%") with true. cbv iota.
    rewrite Hx, Hy, Hc. by destruct (unescape (escape r)).
  - assert (Hp : byte_eqb c "%" = false) by (all_bytes c).
    cbn [unescape]. by rewrite Hp.
Qed.

Lemma unescape_escape s : unescape (escape s) = Some s.
Proof.
  induction s as [|c r IH]; [done|].
  by rewrite unescape_escape_byte, IH.
Qed.

(** No byte of an escaped path is a control byte or '?'. *)
Lemma escape_plain s :
  forallb plain (list_ascii_of_string (escape s)) = true.
Proof.
  induction s as [|c r IH]; [done|]. simpl.
  destruct (shouldEscape c) eqn:E; simpl; rewrite IH.
  - clear E. by all_bytes c.
  - rewrite andb_true_r. by all_bytes c.
Qed.

Lemma containsCTLByte_plain s :
  forallb plain (list_ascii_of_string s) = true -> containsCTLByte s = false.
Proof.
  unfold containsCTLByte.
  induction s as [|c r IH]; [done|]. simpl.
  intros [Hc Hr]%andb_prop. rewrite (IH Hr), orb_false_r.
  unfold plain in Hc. apply andb_prop in Hc as [Hc _].
  by apply negb_true_iff in Hc.
Qed.

Lemma cut_at_plain s :
  forallb plain (list_ascii_of_string s) = true ->
  cut_at "?" s = (s, EmptyString).
Proof.
  induction s as [|c r IH]; [done|]. simpl.
  intros [Hc Hr]%andb_prop. rewrite (IH Hr).
  unfold plain in Hc. apply andb_prop in Hc as [_ Hc].
  apply negb_true_iff in Hc. by rewrite Hc.
Qed.

Lemma append_empty_r (s : string) : (s ++ "")%string = s.
Proof.
  induction s as [|c r IH]; [done|].
  change (String c r ++ "")%string with (String c (r ++ "")%string).
  by rewrite IH.
Qed.

Lemma ParseRequestURI_URL_String_file p :
  HasPrefix p "/" = true ->
  ParseRequestURI (URL_String (mkURL "file" "" "" p ""))
  = Some (mkURL "file" "" "" p "").
Proof.
  intros [r ->]%HasPrefix_slash.
  assert (Hs : URL_String (mkURL "file" "" "" (String "/" r) "")
               = ("file:///" ++ (escape r ++ ""))%string) by reflexivity.
  rewrite Hs, append_empty_r. clear Hs.
  assert (Hplain : forallb plain
                     (list_ascii_of_string ("///" ++ escape r)%string) = true)
    by (simpl; apply escape_plain).
  unfold ParseRequestURI.
  rewrite containsCTLByte_plain by (simpl; apply escape_plain).
  change (str_eqb ("file:///" ++ escape r)%string "") with false.
  change (str_eqb ("file:///" ++ escape r)%string "*") with false.
  change (getScheme ("file:///" ++ escape r)%string)
    with (Some ("file", ("///" ++ escape r)%string)).
  cbv iota beta. change (ToLower "file") with "file".
  rewrite (cut_at_plain _ Hplain).
  change (HasPrefix ("///" ++ escape r)%string "/") with true.
  change (HasPrefix ("///" ++ escape r)%string "//") with true.
  change (str_eqb "file" "") with false.
  cbn [negb andb].
  change (split_authority (tail1 (tail1 ("///" ++ escape r)%string)))
    with (EmptyString, String "/" (escape r)).
  cbv iota beta.
  change (unescape (String "/" (escape r)))
    with (option_map (String "/") (unescape (escape r))).
  by rewrite unescape_escape.
Qed.

(** The hypothesis of the round-trip theorem below holds in the model, on
    either kind of host, for every path the theorem is about. *)
Lemma ParseRequestURI_URL_String_toURI windows p :
  HasPrefix p "/" = true \/ isWindowsDrivePath p = true ->
  ParseRequestURI (URL_String (toURI windows p)) = Some (toURI windows p).
Proof.
  intros Hp. unfold toURI. apply ParseRequestURI_URL_String_file.
  destruct Hp as [Habs|Hdrive].
  - apply ToSlash_HasPrefix_slash. by destruct (isWindowsDrivePath p).
  - rewrite Hdrive. by apply ToSlash_HasPrefix_slash.
Qed.
End UrlModel.

Section RoundTrip.
Variable windows : bool.
Variable ParseRequestURI : string -> option URL.
(** The method [String] of [url.URL], which turns the result of [toURI]
    into the text [fromURI] takes. *)
Variable URL_String : URL -> string.

(** C4 (amended).  When net/url writes and reads back the URL of [toURI]
    without loss, [fromURI (toURI p)] succeeds and returns [p] with its
    separators normalized by [filepath.ToSlash] -- [p] itself on a host
    whose separator is '/' -- for every absolute POSIX-style path [p] that
    does not have the drive form "/", letter, ":" on four bytes or more, and
    for every Windows-drive path [p] of four bytes or more (a letter, then
    ":"); for the latter the path of the intermediate URI begins with "/". *)
Theorem fromURI_toURI_roundtrip (p : string) :
  ParseRequestURI (URL_String (toURI windows p)) = Some (toURI windows p) ->
  (HasPrefix p "/" = true /\ isWindowsDriveURI (ToSlash windows p) = false)
  \/ isWindowsDrivePath p = true ->
  fromURI ParseRequestURI (URL_String (toURI windows p))
  = inl (ToSlash windows p)
  /\ (windows = false -> ToSlash windows p = p)
  /\ (isWindowsDrivePath p = true ->
      HasPrefix (Path (toURI windows p)) "/" = true).
Proof.
  intros Hlib Hp. split; [|split].
  - unfold fromURI. rewrite Hlib. unfold toURI. simpl.
    destruct Hp as [[Habs Hnd]|Hdrive].
    + assert (Hnot : isWindowsDrivePath p = false).
      { unfold isWindowsDrivePath. destruct (len p <? 4); [done|].
        apply HasPrefix_slash in Habs as [r ->]. simpl.
        by destruct (index r 0). }
      rewrite Hnot. by rewrite Hnd.
    + rewrite Hdrive. change ("/" ++ p)%string with (String "/" p).
      rewrite ToSlash_slash.
      by rewrite (isWindowsDriveURI_of_drive_path windows p Hdrive).
  - by intros ->.
  - intros Hdrive. unfold toURI. rewrite Hdrive. simpl.
    change ("/" ++ p)%string with (String "/" p).
    by rewrite ToSlash_slash.
Qed.
End RoundTrip.

Lemma fromURI_toURI_roundtrip_witness :
  GoLib.ParseRequestURI (GoLib.URL_String (toURI false "C:/src/main.c"))
  = Some (toURI false "C:/src/main.c")
  /\ isWindowsDrivePath "C:/src/main.c" = true
  /\ fromURI GoLib.ParseRequestURI (GoLib.URL_String (toURI false "C:/src/main.c"))
     = inl "C:/src/main.c"
  /\ HasPrefix (Path (toURI false "C:/src/main.c")) "/" = true.
Proof.
  assert (Hlib : GoLib.ParseRequestURI
                   (GoLib.URL_String (toURI false "C:/src/main.c"))
                 = Some (toURI false "C:/src/main.c")) by reflexivity.
  assert (Hdrive : isWindowsDrivePath "C:/src/main.c" = true) by reflexivity.
  destruct (fromURI_toURI_roundtrip false GoLib.ParseRequestURI
              GoLib.URL_String "C:/src/main.c" Hlib (or_intror Hdrive))
    as (Hrt & _ & Hslash).
  split; [exact Hlib|]. split; [exact Hdrive|]. split; [exact Hrt|].
  exact (Hslash Hdrive).
Defined.

(** C4, as stated, fails: the absolute POSIX path "/c:/foo" comes back as
    "c:/foo"; the drive path "C:/" is put in the URI without a leading "/";
    and on a Windows host the drive path "C:\src\a.c" comes back with its
    separators changed. *)
Lemma fromURI_toURI_counterexample :
  (HasPrefix "/c:/foo" "/" = true
   /\ fromURI GoLib.ParseRequestURI (GoLib.URL_String (toURI false "/c:/foo"))
      = inl "c:/foo"
   /\ "c:/foo" <> "/c:/foo")
  /\ (index "C:/" 0 = Some "C"%char /\ index "C:/" 1 = Some ":"%char
      /\ Path (toURI false "C:/") = "C:/"
      /\ HasPrefix "C:/" "/" = false)
  /\ (fromURI GoLib.ParseRequestURI (GoLib.URL_String (toURI true "C:\src\a.c"))
      = inl "C:/src/a.c"
      /\ "C:/src/a.c" <> "C:\src\a.c").
Proof. by repeat split. Qed.

(** ** The lint pipeline *)

Lemma length_omap_le {A B} (f : A -> option B) (l : list A) :
  (length (omap f l) <= length l)%nat.
Proof.
  induction l as [|x l IH]; simpl; [done|].
  unfold omap in IH. destruct (f x); simpl; lia.
Qed.

Section LintProperties.
Variable windows : bool.
Variable ToLower : string -> string.
Variable Abs : string -> option string.
Variable ParseRequestURI : string -> option URL.
Variable Efm : Type.
Variable NewEfm : string -> option Efm.
Variable Match : Efm -> string -> option Match_.
Variable CombinedOutput : list string -> option string -> string * bool.

Local Abbreviation lintMatch' := (lintMatch windows ToLower Abs Efm Match).
Local Abbreviation diagnosticOf' := (diagnosticOf windows ToLower Abs Efm Match).
Local Abbreviation diagnosticsOf' := (diagnosticsOf windows ToLower Abs Efm Match).
Local Abbreviation sameDocument' := (sameDocument windows ToLower Abs).
Local Abbreviation normalize' := (normalize windows ToLower).
Local Abbreviation lint' :=
  (lint windows ToLower Abs ParseRequestURI Efm NewEfm Match CombinedOutput).
Local Abbreviation linter' :=
  (linter windows ToLower Abs ParseRequestURI Efm NewEfm Match CombinedOutput).
Local Abbreviation stdinOf config f :=
  (if LintStdin config then Some (Text f) else None).

(** [lint] reads the documents and the configurations only. *)
Lemma lint_withRequest h c uri : lint' (withRequest h c) uri = lint' h uri.
Proof. reflexivity. Qed.

(** One iteration of the dispatcher publishes what [lint] returned. *)
Lemma linter_one_iteration h uri q cl tr :
  trace (linter' 1 {| hdl := withRequest h {| sendq := uri :: q; closed := cl |};
                      wrk := WRecv; trace := tr |})
  = tr ++ fst (lint' h uri) ++ [EvNotify uri (snd (lint' h uri))].
Proof.
  simpl. rewrite !lint_withRequest. by destruct (lint' h uri).
Qed.

(** A diagnostic of a run, traced back to its line, pattern and match. *)
Lemma lint_diagnostic_origin h uri ds d :
  snd (lint' h uri) = Some ds ->
  d ∈ ds ->
  exists fname line ef m path,
    fromURI ParseRequestURI uri = inl fname
    /\ Match ef line = Some m
    /\ Abs (matchFile windows (configFor h uri) (normalize' fname) m) = Some path
    /\ normalize' path = normalize' fname
    /\ d = diagnosticAt (configFor h uri) m.
Proof.
  intros (f & fname & efms & b & ok & Hf & Hu & He & Hc & ->)%lint_Some Hd.
  destruct ok; [by apply elem_of_nil in Hd|].
  apply elem_of_diagnosticsOf in Hd as (line & ef & _ & _ & Hd).
  apply diagnosticOf_Some in Hd as (m & path & Hm & Ha & Hp & ->).
  by exists fname, line, ef, m, path.
Qed.

(** C1 (amended).  When the command fails and its output is parsed, every
    line is tried against every configured pattern, in configuration order,
    and every pattern that matches the line yields a match, whatever the
    patterns before it did: there is no stop at the first one.  A line
    contributes at most one diagnostic per configured pattern, in
    configuration order. *)
Theorem lint_every_matching_pattern h uri f fname efms b :
  files h !! uri = Some f ->
  fromURI ParseRequestURI uri = inl fname ->
  NewErrorformat Efm NewEfm (LintErrorFormats (configFor h uri)) = Some efms ->
  CombinedOutput (shell windows (LintCommand (configFor h uri)))
                 (stdinOf (configFor h uri) f) = (b, false) ->
  Forall2 (fun pattern ef => NewEfm pattern = Some ef)
          (slice_elems (LintErrorFormats (configFor h uri))) efms
  /\ snd (lint' h uri)
     = Some (concat
               (map (fun line =>
                       omap (diagnosticOf' (configFor h uri) (normalize' fname) line)
                            efms)
                    (Split_lines b)))
  /\ (forall line,
        (length (omap (diagnosticOf' (configFor h uri) (normalize' fname) line) efms)
         <= length (slice_elems (LintErrorFormats (configFor h uri))))%nat)
  /\ (forall diagnostics line ef m,
        Match ef line = Some m ->
        sameDocument' (normalize' fname)
          (matchFile windows (configFor h uri) (normalize' fname) m) = true ->
        lintMatch' (configFor h uri) (normalize' fname) diagnostics line ef
        = diagnostics ++ [diagnosticAt (configFor h uri) m]
        /\ diagnosticOf' (configFor h uri) (normalize' fname) line ef
           = Some (diagnosticAt (configFor h uri) m)).
Proof.
  intros Hf Hu He Hc.
  assert (HF2 : Forall2 (fun pattern ef => NewEfm pattern = Some ef)
                  (slice_elems (LintErrorFormats (configFor h uri))) efms)
    by (by apply mapM_Some).
  split; [exact HF2|]. split; [|split].
  - by rewrite (lint_run _ _ _ _ _ _ _ _ h uri f fname efms b false Hf Hu He Hc).
  - intros line. rewrite (Forall2_length _ _ _ HF2). apply length_omap_le.
  - intros diagnostics line ef m Hm Hsame.
    rewrite lintMatch_diagnosticOf. unfold diagnosticOf.
    by rewrite Hm, Hsame.
Qed.



(** C5 (amended).  Every diagnostic of a lint run is a point range built
    from a surviving match: its line is [match.line - 1 - lint-offset] and
    its column [match.column - 1], a reported column of 0 being first
    replaced by 1, both computed in Go's wrapping [int] arithmetic -- hence
    exactly those integers whenever they lie in the range of [int]; the
    message is the match's message and the severity is 1. *)
Theorem lint_diagnostic_shape h uri ds d :
  snd (lint' h uri) = Some ds ->
  d ∈ ds ->
  exists line ef m,
    Match ef line = Some m
    /\ Start (Range_ d) = End_ (Range_ d)
    /\ Line (Start (Range_ d)) = int_wrap (L m - 1 - LintOffset (configFor h uri))
    /\ Character (Start (Range_ d)) = int_wrap ((if C m =? 0 then 1 else C m) - 1)
    /\ (int_range (L m - 1 - LintOffset (configFor h uri)) ->
        Line (Start (Range_ d)) = L m - 1 - LintOffset (configFor h uri))
    /\ (int_range ((if C m =? 0 then 1 else C m) - 1) ->
        Character (Start (Range_ d)) = (if C m =? 0 then 1 else C m) - 1)
    /\ Message d = M m
    /\ Severity d = 1.
Proof.
  intros Hs Hd.
  destruct (lint_diagnostic_origin h uri ds d Hs Hd)
    as (fname & line & ef & m & path & _ & Hm & _ & _ & ->).
  exists line, ef, m. unfold diagnosticAt. simpl.
  rewrite int_sub_sub. unfold int_sub at 1.
  repeat split; try done.
  - apply int_wrap_id.
  - apply int_wrap_id.
Qed.

(** X23.  The standard-input placeholder step of lines 154-158, for a match
    of an output line against a configured pattern: when the configuration
    specifies standard-input delivery and the reported file is "stdin" or
    "-", the file tested at lines 162-172 is the normalized path of the
    linted document, and the match yields a diagnostic of the run if that
    path is left unchanged by [filepath.Abs], [filepath.ToSlash] and the
    case folding; otherwise the file tested is the slash-normalized reported
    file. *)
Theorem lint_stdin_placeholder h uri f fname efms b line ef m :
  files h !! uri = Some f ->
  fromURI ParseRequestURI uri = inl fname ->
  NewErrorformat Efm NewEfm (LintErrorFormats (configFor h uri)) = Some efms ->
  CombinedOutput (shell windows (LintCommand (configFor h uri)))
                 (stdinOf (configFor h uri) f) = (b, false) ->
  line ∈ Split_lines b ->
  ef ∈ efms ->
  Match ef line = Some m ->
  (LintStdin (configFor h uri) = true /\ (F m = "stdin" \/ F m = "-") ->
   matchFile windows (configFor h uri) (normalize' fname) m = normalize' fname
   /\ (sameDocument' (normalize' fname) (normalize' fname) = true ->
       exists ds, snd (lint' h uri) = Some ds
                  /\ diagnosticAt (configFor h uri) m ∈ ds))
  /\ (~ (LintStdin (configFor h uri) = true /\ (F m = "stdin" \/ F m = "-")) ->
      matchFile windows (configFor h uri) (normalize' fname) m
      = ToSlash windows (F m)).
Proof.
  intros Hf Hu He Hc Hline Hef Hm. split.
  - intros [Hstdin Hph].
    assert (Hfile : matchFile windows (configFor h uri) (normalize' fname) m
                    = normalize' fname).
    { unfold matchFile. rewrite Hstdin.
      by destruct Hph as [-> | ->]. }
    split; [exact Hfile|]. intros Hsame.
    eexists. split.
    + by rewrite (lint_run _ _ _ _ _ _ _ _ h uri f fname efms b false Hf Hu He Hc).
    + apply elem_of_diagnosticsOf. exists line, ef.
      split; [done|]. split; [done|].
      unfold diagnosticOf. by rewrite Hm, Hfile, Hsame.
  - intros Hnot. unfold matchFile.
    destruct (LintStdin (configFor h uri)); [|done]. simpl.
    destruct (str_eqb (F m) "stdin") eqn:E1.
    { apply str_eqb_eq in E1. destruct Hnot. by split; [|left]. }
    destruct (str_eqb (F m) "-") eqn:E2; [|done].
    apply str_eqb_eq in E2. destruct Hnot. by split; [|right].
Qed.

(** C7 (amended).  When the resolved configuration of a document carries
    no lint command, the run is not skipped on that account.  It ends
    without starting anything, with a nil slice and one logged error, when
    the document is not open, when its URI is not a file URI, or when a
    configured pattern does not compile.  In every other case the platform
    shell is invoked with the empty command, and the run returns an empty,
    non-nil slice of diagnostics whenever that invocation exits with status
    zero and, for the empty configuration of an unregistered language,
    whatever the invocation returns. *)
Theorem lint_without_command (h : langHandler) (uri : string) :
  LintCommand (configFor h uri) = "" ->
  (files h !! uri = None ->
   lint' h uri = ([EvStderr LogDocumentNotFound], None))
  /\ (forall f err,
        files h !! uri = Some f ->
        fromURI ParseRequestURI uri = inr err ->
        lint' h uri = ([EvStderr (LogURIError err)], None))
  /\ (forall f fname,
        files h !! uri = Some f ->
        fromURI ParseRequestURI uri = inl fname ->
        NewErrorformat Efm NewEfm (LintErrorFormats (configFor h uri)) = None ->
        lint' h uri = ([EvStderr LogErrorformatError], None))
  /\ (forall f fname efms,
        files h !! uri = Some f ->
        fromURI ParseRequestURI uri = inl fname ->
        NewErrorformat Efm NewEfm (LintErrorFormats (configFor h uri))
        = Some efms ->
        EvExec (shell windows "") (stdinOf (configFor h uri) f)
          ∈ fst (lint' h uri)
        /\ (snd (CombinedOutput (shell windows "")
                                (stdinOf (configFor h uri) f)) = true ->
            snd (lint' h uri) = Some []))
  /\ (forall f fname,
        files h !! uri = Some f ->
        fromURI ParseRequestURI uri = inl fname ->
        configFor h uri = Config_zero ->
        EvExec (shell windows "") None ∈ fst (lint' h uri)
        /\ snd (lint' h uri) = Some []).
Proof.
  intros Hcmd.
  assert (Hgen : forall f fname efms,
    files h !! uri = Some f ->
    fromURI ParseRequestURI uri = inl fname ->
    NewErrorformat Efm NewEfm (LintErrorFormats (configFor h uri)) = Some efms ->
    EvExec (shell windows "") (stdinOf (configFor h uri) f) ∈ fst (lint' h uri)
    /\ snd (lint' h uri)
       = Some (if snd (CombinedOutput (shell windows "")
                                      (stdinOf (configFor h uri) f))
               then []
               else diagnosticsOf' (configFor h uri) (normalize' fname) efms
                      (fst (CombinedOutput (shell windows "")
                                           (stdinOf (configFor h uri) f))))).
  { intros f fname efms Hf Hu He.
    destruct (CombinedOutput (shell windows "") (stdinOf (configFor h uri) f))
      as [b ok] eqn:Hc.
    rewrite <- Hcmd in Hc.
    rewrite (lint_run _ _ _ _ _ _ _ _ h uri f fname efms b ok Hf Hu He Hc).
    rewrite Hcmd. simpl. split; [|done]. apply list_elem_of_here. }
  split; [|split; [|split; [|split]]].
  - intros Hf. unfold lint. by rewrite Hf.
  - intros f err Hf Hu. unfold lint. by rewrite Hf, Hu.
  - intros f fname Hf Hu He. unfold lint. by rewrite Hf, Hu, He.
  - intros f fname efms Hf Hu He. destruct (Hgen f fname efms Hf Hu He) as [Hexec Hres].
    split; [exact Hexec|]. intros Hok. by rewrite Hres, Hok.
  - intros f fname Hf Hu Hzero.
    assert (He : NewErrorformat Efm NewEfm (LintErrorFormats (configFor h uri))
                 = Some []) by (by rewrite Hzero).
    destruct (Hgen f fname [] Hf Hu He) as [Hexec Hres].
    rewrite Hzero in Hexec. simpl in Hexec.
    split; [exact Hexec|]. rewrite Hres.
    f_equal. destruct (CombinedOutput _ _) as [b ok]. simpl.
    destruct ok; [done|]. unfold diagnosticsOf.
    induction (Split_lines b) as [|l ls IH]; [done|]. by simpl.
Qed.

(** C10 (amended).  The line of a diagnostic is not clamped: for a
    surviving match with line [L] and configured lint-offset [k], the start
    and end line is [L - 1 - k] computed in Go's wrapping [int] arithmetic,
    which is exactly [L - 1 - k] whenever that integer lies in the range of
    [int] -- in particular whenever [k >= L] (for [L >= 0] and [k] an [int]),
    where it is negative -- and the dispatcher publishes the slice that
    [lint] returned as it is. *)
Theorem lint_line_unclamped h uri ds d :
  snd (lint' h uri) = Some ds ->
  d ∈ ds ->
  (exists line ef m,
     Match ef line = Some m
     /\ Line (Start (Range_ d)) = int_wrap (L m - 1 - LintOffset (configFor h uri))
     /\ Line (End_ (Range_ d)) = Line (Start (Range_ d))
     /\ (int_range (L m - 1 - LintOffset (configFor h uri)) ->
         Line (Start (Range_ d)) = L m - 1 - LintOffset (configFor h uri))
     /\ (0 <= L m -> int_range (LintOffset (configFor h uri)) ->
         LintOffset (configFor h uri) >= L m ->
         Line (Start (Range_ d)) = L m - 1 - LintOffset (configFor h uri)
         /\ Line (Start (Range_ d)) < 0))
  /\ (forall q cl tr,
        trace (linter' 1 {| hdl := withRequest h {| sendq := uri :: q; closed := cl |};
                            wrk := WRecv; trace := tr |})
        = tr ++ fst (lint' h uri) ++ [EvNotify uri (Some ds)]).
Proof.
  intros Hs Hd. split.
  - destruct (lint_diagnostic_origin h uri ds d Hs Hd)
      as (fname & line & ef & m & path & _ & Hm & _ & _ & ->).
    exists line, ef, m. unfold diagnosticAt. simpl.
    rewrite int_sub_sub.
    split; [done|]. split; [done|]. split; [done|]. split.
    + apply int_wrap_id.
    + intros HL Hk Hge.
      rewrite int_wrap_id; [lia|].
      unfold int_range, int_min, int_max in *. lia.
  - intros q cl tr. by rewrite linter_one_iteration, Hs.
Qed.
End LintProperties.

(** ** Document store *)

Lemma updateFile_open h uri text f :
  files h !! uri = Some f ->
  updateFile h uri text
  = ({| configs := configs h;
        files := <[uri := {| LanguageId := LanguageId f; Text := text |}]> (files h);
        request := chan_send (request h) uri |}, None).
Proof. intros Hf. unfold updateFile. by rewrite Hf. Qed.

Lemma updateFile_absent h uri text :
  files h !! uri = None ->
  updateFile h uri text = (h, Some (ErrDocumentNotFound uri)).
Proof. intros Hf. unfold updateFile. by rewrite Hf. Qed.

(** [NewHandler] stores the configurations it was given, as they are. *)
Lemma NewHandler_configs cs : configs (hdl (NewHandler cs)) = cs.
Proof. reflexivity. Qed.

Section DidOpen.
Variable Unmarshal : string -> option DidOpenTextDocumentParams.

End DidOpen.

(** ** The dispatcher *)

Lemma pick_of_two {A} (q1 q2 : list A) (x u : A) :
  q1 ++ x :: q2 = [u; u] -> x = u /\ q1 ++ q2 = [u].
Proof.
  destruct q1 as [|a [|b q1]]; simpl; intros H; simplify_eq; try done.
  by destruct q1.
Qed.

Lemma pick_of_one {A} (q1 q2 : list A) (x u : A) :
  q1 ++ x :: q2 = [u] -> x = u /\ q1 ++ q2 = [].
Proof.
  destruct q1 as [|a q1]; simpl; intros H; simplify_eq; try done.
  by destruct q1.
Qed.

(** Closes a membership goal in a list written out, once the queue of the
    state is known. *)
Ltac in_states :=
  try match goal with
      | H : sendq _ = _ |- _ => rewrite H
      end;
  repeat first [ apply list_elem_of_here | apply list_elem_of_further ].

Lemma pick_of_none {A} (q1 q2 : list A) (x : A) : q1 ++ x :: q2 <> [].
Proof. by destruct q1. Qed.

Section Dispatcher.
Variable windows : bool.
Variable ToLower : string -> string.
Variable Abs : string -> option string.
Variable ParseRequestURI : string -> option URL.
Variable Efm : Type.
Variable NewEfm : string -> option Efm.
Variable Match : Efm -> string -> option Match_.
Variable CombinedOutput : list string -> option string -> string * bool.

Local Abbreviation lint' :=
  (lint windows ToLower Abs ParseRequestURI Efm NewEfm Match CombinedOutput).
Local Abbreviation linter_step' :=
  (linter_step windows ToLower Abs ParseRequestURI Efm NewEfm Match
               CombinedOutput).
Local Abbreviation linter' :=
  (linter windows ToLower Abs ParseRequestURI Efm NewEfm Match CombinedOutput).

Lemma lint_ext h1 h2 uri :
  files h1 = files h2 -> configs h1 = configs h2 -> lint' h1 uri = lint' h2 uri.
Proof.
  destruct h1 as [c1 f1 r1], h2 as [c2 f2 r2]. simpl. by intros -> ->.
Qed.

(** The executable dispatcher follows the step relation. *)
Lemma linter_steps n s : rtc linter_step' s (linter' n s).
Proof.
  revert s. induction n as [|n IH]; intros [h w tr]; simpl; [done|].
  destruct w; try done.
  destruct (sendq (request h)) as [|uri q] eqn:Hq.
  - destruct (closed (request h)) eqn:Hcl; [|done].
    apply rtc_once, step_closed. destruct (request h). simpl in *. by subst.
  - destruct (lint' _ uri) as [evs ds] eqn:Hl.
    eapply rtc_l.
    { apply (step_recv _ _ _ _ _ _ _ _ h tr [] uri q (closed (request h))).
      destruct (request h). simpl in *. by subst. }
    eapply rtc_l; [apply step_lint|]. eapply rtc_l; [apply step_notify|].
    simpl. rewrite Hl. simpl. rewrite <- app_assoc. apply IH.
Qed.

(** With two requests for one document pending, the dispatcher goes through
    the states of [twoRuns] and no other. *)
Lemma two_requests_invariant h uri tr s :
  request h = {| sendq := [uri; uri]; closed := false |} ->
  rtc linter_step' {| hdl := h; wrk := WRecv; trace := tr |} s ->
  configs (hdl s) = configs h
  /\ files (hdl s) = files h
  /\ closed (request (hdl s)) = false
  /\ (sendq (request (hdl s)), wrk s, trace s) ∈ twoRuns uri tr (lint' h uri).
Proof.
  intros Hreq. revert s. apply rtc_ind_r.
  { simpl. rewrite Hreq. simpl. repeat split; try done. apply list_elem_of_here. }
  intros s s' Hrtc Hstep IH.
  destruct IH as (Hc & Hf & Hcl & Hin).
  unfold twoRuns in Hin. rewrite !elem_of_cons, elem_of_nil in Hin.
  inversion Hstep as [h0 tr0 q1 uri0 q2 cl Hq | h0 tr0 Hq | h0 tr0 uri0 | h0 tr0 uri0 ds];
    subst s s'; simpl in *.
  - (* receive *)
    rewrite Hq in Hin, Hcl. simpl in Hin, Hcl. subst cl.
    repeat split; try done.
    destruct Hin as [H|[H|[H|[H|[H|[H|[H|[]]]]]]]]; simplify_eq.
    + destruct (pick_of_two _ _ _ _ H) as [-> ->].
      unfold twoRuns. in_states.
    + destruct (pick_of_one _ _ _ _ H) as [-> ->].
      unfold twoRuns. in_states.
    + by apply pick_of_none in H.
  - (* closed channel *)
    rewrite Hq in Hcl. done.
  - (* lint *)
    rewrite (lint_ext h0 h uri0 Hf Hc).
    repeat split; try done.
    destruct Hin as [H|[H|[H|[H|[H|[H|[H|[]]]]]]]]; simplify_eq;
      unfold twoRuns; in_states.
  - (* notify *)
    repeat split; try done.
    destruct Hin as [H|[H|[H|[H|[H|[H|[H|[]]]]]]]]; simplify_eq;
      unfold twoRuns; in_states.
Qed.
Lemma no_step_when_idle h tr s' :
  request h = {| sendq := []; closed := false |} ->
  ~ linter_step' {| hdl := h; wrk := WRecv; trace := tr |} s'.
Proof.
  intros Hreq Hstep.
  inversion Hstep as [h0 tr0 q1 uri0 q2 cl Hq | h0 tr0 Hq | |]; subst;
    rewrite Hreq in Hq; simplify_eq.
  by eapply pick_of_none.
Qed.

(** C8.  With two requests for the same document waiting on the request
    channel and the dispatcher ready to receive, the dispatcher runs to a
    state where it waits again with nothing pending; every such run performs
    exactly two lint runs, one after the other, each followed by its own
    publish; and a lint run starts only when nothing has been done yet or
    right after the publish of the first run, so that two runs are never in
    flight together. *)
Theorem linter_two_requests h uri tr :
  request h = {| sendq := [uri; uri]; closed := false |} ->
  (exists s,
     rtc linter_step' {| hdl := h; wrk := WRecv; trace := tr |} s
     /\ forall s', ~ linter_step' s s')
  /\ (forall s,
        rtc linter_step' {| hdl := h; wrk := WRecv; trace := tr |} s ->
        (forall s', ~ linter_step' s s') ->
        trace s
        = tr ++ (fst (lint' h uri) ++ [EvNotify uri (snd (lint' h uri))])
             ++ (fst (lint' h uri) ++ [EvNotify uri (snd (lint' h uri))])
        /\ wrk s = WRecv
        /\ sendq (request (hdl s)) = [])
  /\ (forall s uri',
        rtc linter_step' {| hdl := h; wrk := WRecv; trace := tr |} s ->
        wrk s = WLint uri' ->
        uri' = uri
        /\ (trace s = tr
            \/ trace s
               = tr ++ fst (lint' h uri) ++ [EvNotify uri (snd (lint' h uri))])).
Proof.
  intros Hreq. split; [|split].
  - exists (linter' 2 {| hdl := h; wrk := WRecv; trace := tr |}).
    split; [apply linter_steps|].
    intros s'. simpl. rewrite Hreq. simpl.
    rewrite !lint_withRequest. destruct (lint' h uri) as [evs ds]. simpl.
    by apply no_step_when_idle.
  - intros [h0 w tr0] Hrtc Hterm.
    destruct (two_requests_invariant h uri tr _ Hreq Hrtc) as (_ & _ & Hcl & Hin).
    simpl in *. unfold twoRuns in Hin. rewrite !elem_of_cons, elem_of_nil in Hin.
    destruct (request h0) as [q cl] eqn:Hq. simpl in *. subst cl.
    destruct Hin as [H|[H|[H|[H|[H|[H|[H|[]]]]]]]]; simplify_eq.
    + destruct (Hterm _ (step_recv _ _ _ _ _ _ _ _ h0 tr [] uri [uri] false Hq)).
    + destruct (Hterm _ (step_lint _ _ _ _ _ _ _ _ h0 tr uri)).
    + destruct (Hterm _ (step_notify _ _ _ _ _ _ _ _ h0 _ uri _)).
    + destruct (Hterm _ (step_recv _ _ _ _ _ _ _ _ h0 _ [] uri [] false Hq)).
    + destruct (Hterm _ (step_lint _ _ _ _ _ _ _ _ h0 _ uri)).
    + destruct (Hterm _ (step_notify _ _ _ _ _ _ _ _ h0 _ uri _)).
    + by rewrite <- !app_assoc.
  - intros [h0 w tr0] uri' Hrtc Hw.
    destruct (two_requests_invariant h uri tr _ Hreq Hrtc) as (_ & _ & _ & Hin).
    simpl in *. subst w. unfold twoRuns in Hin.
    rewrite !elem_of_cons, elem_of_nil in Hin.
    destruct Hin as [H|[H|[H|[H|[H|[H|[H|[]]]]]]]]; simplify_eq.
    + by split; [|left].
    + split; [done|]. right. by rewrite <- app_assoc.
Qed.
End Dispatcher.

(** ** The handler run on concrete inputs *)

Section Runs.
Import Posix Example.

Local Abbreviation posix_lint out := (Posix.lint wd out).

Lemma lint_every_matching_pattern_witness :
  files (open bothPatterns) !! uri = Some document
  /\ Posix.fromURI uri = inl "/tmp/a.c"
  /\ NewErrorformat GoLib.Efm GoLib.NewEfm
       (LintErrorFormats (configFor (open bothPatterns) uri))
     = Some (efmsOf bothPatterns)
  /\ failing "lint" "/tmp/a.c:1:2:bad"
       (shell false (LintCommand (configFor (open bothPatterns) uri))) None
     = ("/tmp/a.c:1:2:bad", false)
  /\ snd (posix_lint (failing "lint" "/tmp/a.c:1:2:bad") (open bothPatterns) uri)
     = Some [at_ 0 0 "2:bad"; at_ 0 1 "bad"].
Proof.
  assert (Hf : files (open bothPatterns) !! uri = Some document)
    by (vm_compute; reflexivity).
  assert (Hu : Posix.fromURI uri = inl "/tmp/a.c") by (vm_compute; reflexivity).
  assert (He : NewErrorformat GoLib.Efm GoLib.NewEfm
                 (LintErrorFormats (configFor (open bothPatterns) uri))
               = Some (efmsOf bothPatterns)) by (vm_compute; reflexivity).
  assert (Hc : failing "lint" "/tmp/a.c:1:2:bad"
                 (shell false (LintCommand (configFor (open bothPatterns) uri)))
                 (if LintStdin (configFor (open bothPatterns) uri)
                  then Some (Text document) else None)
               = ("/tmp/a.c:1:2:bad", false)) by (vm_compute; reflexivity).
  destruct (lint_every_matching_pattern false GoLib.ToLower (GoLib.Abs wd)
              GoLib.ParseRequestURI GoLib.Efm GoLib.NewEfm GoLib.Match
              (failing "lint" "/tmp/a.c:1:2:bad")
              (open bothPatterns) uri document "/tmp/a.c" (efmsOf bothPatterns)
              "/tmp/a.c:1:2:bad" Hf Hu He Hc) as (_ & Hres & _).
  split; [exact Hf|]. split; [exact Hu|]. split; [exact He|].
  split; [exact Hc|]. exact Hres.
Defined.

(** C1, as stated, fails: with the two built-in patterns configured, the
    one output line "/tmp/a.c:1:2:bad" matches both and contributes two
    diagnostics, where the first pattern alone would give one. *)
Lemma lint_first_match_counterexample :
  Split_lines "/tmp/a.c:1:2:bad" = ["/tmp/a.c:1:2:bad"]
  /\ snd (posix_lint (failing "lint" "/tmp/a.c:1:2:bad") (open bothPatterns) uri)
     = Some [at_ 0 0 "2:bad"; at_ 0 1 "bad"]
  /\ firstMatchDiagnosticsOf false GoLib.ToLower (GoLib.Abs wd) GoLib.Efm
       GoLib.Match bothPatterns "/tmp/a.c" (efmsOf bothPatterns)
       "/tmp/a.c:1:2:bad"
     = [at_ 0 0 "2:bad"].
Proof. by vm_compute. Qed.

(** C2 fails on the code: [NewHandler] stores a configuration that leaves
    the patterns unset as it is, so a lint run for a document of that
    language compiles no pattern and reports nothing, where the two built-in
    patterns, configured explicitly, report the problem. *)
Theorem NewHandler_leaves_patterns_unset :
  configs (hdl (NewHandler {[ "c" := unsetPatterns ]})) !! "c"
  = Some unsetPatterns
  /\ LintErrorFormats
       (configFor
          (fst (updateFile
                  (fst (openFile (hdl (NewHandler {[ "c" := unsetPatterns ]}))
                                 uri "c"))
                  uri "int x"))
          uri)
     = None
  /\ snd (posix_lint (failing "lint" "/tmp/a.c:1:oops")
            (fst (updateFile
                    (fst (openFile (hdl (NewHandler {[ "c" := unsetPatterns ]}))
                                   uri "c"))
                    uri "int x"))
            uri)
     = Some []
  /\ snd (posix_lint (failing "lint" "/tmp/a.c:1:oops")
            (fst (updateFile
                    (fst (openFile (hdl (NewHandler {[ "c" := bothPatterns ]}))
                                   uri "c"))
                    uri "int x"))
            uri)
     = Some [at_ 0 0 "oops"].
Proof. by vm_compute. Qed.


Lemma lint_diagnostic_shape_witness :
  snd (posix_lint (failing "lint" "/tmp/a.c:10:unexpected token")
         (open (config ["%f:%l:%m"] false 1)) uri)
  = Some [at_ 8 0 "unexpected token"]
  /\ at_ 8 0 "unexpected token" ∈ [at_ 8 0 "unexpected token"]
  /\ exists line ef m,
       GoLib.Match ef line = Some m
       /\ 8 = int_wrap (L m - 1 - 1)
       /\ 0 = int_wrap ((if C m =? 0 then 1 else C m) - 1)
       /\ (int_range (L m - 1 - 1) -> 8 = L m - 1 - 1)
       /\ "unexpected token" = M m.
Proof.
  assert (Hs : snd (posix_lint (failing "lint" "/tmp/a.c:10:unexpected token")
                      (open (config ["%f:%l:%m"] false 1)) uri)
               = Some [at_ 8 0 "unexpected token"]) by (vm_compute; reflexivity).
  assert (Hd : at_ 8 0 "unexpected token" ∈ [at_ 8 0 "unexpected token"])
    by apply list_elem_of_here.
  split; [exact Hs|]. split; [exact Hd|].
  destruct (lint_diagnostic_shape false GoLib.ToLower (GoLib.Abs wd)
              GoLib.ParseRequestURI GoLib.Efm GoLib.NewEfm GoLib.Match
              _ _ _ _ _ Hs Hd)
    as (line & ef & m & Hm & _ & HL & HC & HLr & _ & HM & _).
  exists line, ef, m.
  split; [exact Hm|]. split; [exact HL|]. split; [exact HC|].
  split; [exact HLr|]. exact HM.
Defined.

(** C5, as stated, fails: with lint-offset -10 the match of
    "/tmp/a.c:9223372036854775807:7:overflow" has line 9223372036854775807,
    and the diagnostic gets line -9223372036854775800, which is not
    9223372036854775807 - 1 - (-10). *)
Lemma lint_diagnostic_shape_counterexample :
  GoLib.Match [GoLib.ItemF; GoLib.ItemLit ":"; GoLib.ItemL; GoLib.ItemLit ":";
               GoLib.ItemC; GoLib.ItemLit ":"; GoLib.ItemM]
              "/tmp/a.c:9223372036854775807:7:overflow"
  = Some {| F := "/tmp/a.c"; L := 9223372036854775807; C := 7; M := "overflow" |}
  /\ snd (posix_lint (failing "lint" "/tmp/a.c:9223372036854775807:7:overflow")
            (open (config ["%f:%l:%c:%m"] false (-10))) uri)
     = Some [at_ (-9223372036854775800) 6 "overflow"]
  /\ -9223372036854775800 <> 9223372036854775807 - 1 - (-10).
Proof. by vm_compute. Qed.

Lemma lint_stdin_placeholder_witness :
  files (open (config ["%f:%l:%c:%m"] true 0)) !! uri = Some document
  /\ Posix.fromURI uri = inl "/tmp/a.c"
  /\ NewErrorformat GoLib.Efm GoLib.NewEfm
       (LintErrorFormats (configFor (open (config ["%f:%l:%c:%m"] true 0)) uri))
     = Some (efmsOf (config ["%f:%l:%c:%m"] true 0))
  /\ failing "lint" "stdin:3:4:bad"
       (shell false
          (LintCommand (configFor (open (config ["%f:%l:%c:%m"] true 0)) uri)))
       (Some "int x")
     = ("stdin:3:4:bad", false)
  /\ "stdin:3:4:bad" ∈ Split_lines "stdin:3:4:bad"
  /\ GoLib.Match [GoLib.ItemF; GoLib.ItemLit ":"; GoLib.ItemL; GoLib.ItemLit ":";
                  GoLib.ItemC; GoLib.ItemLit ":"; GoLib.ItemM] "stdin:3:4:bad"
     = Some {| F := "stdin"; L := 3; C := 4; M := "bad" |}
  /\ exists ds,
       snd (posix_lint (failing "lint" "stdin:3:4:bad")
              (open (config ["%f:%l:%c:%m"] true 0)) uri) = Some ds
       /\ at_ 2 3 "bad" ∈ ds.
Proof.
  assert (Hf : files (open (config ["%f:%l:%c:%m"] true 0)) !! uri = Some document)
    by (vm_compute; reflexivity).
  assert (Hu : Posix.fromURI uri = inl "/tmp/a.c") by (vm_compute; reflexivity).
  assert (He : NewErrorformat GoLib.Efm GoLib.NewEfm
                 (LintErrorFormats
                    (configFor (open (config ["%f:%l:%c:%m"] true 0)) uri))
               = Some (efmsOf (config ["%f:%l:%c:%m"] true 0)))
    by (vm_compute; reflexivity).
  assert (Hc : failing "lint" "stdin:3:4:bad"
                 (shell false
                    (LintCommand
                       (configFor (open (config ["%f:%l:%c:%m"] true 0)) uri)))
                 (if LintStdin (configFor (open (config ["%f:%l:%c:%m"] true 0)) uri)
                  then Some (Text document) else None)
               = ("stdin:3:4:bad", false)) by (vm_compute; reflexivity).
  assert (Hline : "stdin:3:4:bad" ∈ Split_lines "stdin:3:4:bad")
    by apply list_elem_of_here.
  assert (Hef : [GoLib.ItemF; GoLib.ItemLit ":"; GoLib.ItemL; GoLib.ItemLit ":";
                 GoLib.ItemC; GoLib.ItemLit ":"; GoLib.ItemM]
                ∈ efmsOf (config ["%f:%l:%c:%m"] true 0))
    by apply list_elem_of_here.
  assert (Hm : GoLib.Match
                 [GoLib.ItemF; GoLib.ItemLit ":"; GoLib.ItemL; GoLib.ItemLit ":";
                  GoLib.ItemC; GoLib.ItemLit ":"; GoLib.ItemM] "stdin:3:4:bad"
               = Some {| F := "stdin"; L := 3; C := 4; M := "bad" |})
    by (vm_compute; reflexivity).
  destruct (lint_stdin_placeholder false GoLib.ToLower (GoLib.Abs wd)
              GoLib.ParseRequestURI GoLib.Efm GoLib.NewEfm GoLib.Match
              (failing "lint" "stdin:3:4:bad")
              _ _ _ _ _ _ _ _ _ Hf Hu He Hc Hline Hef Hm) as [Hplace _].
  destruct (Hplace (conj eq_refl (or_introl eq_refl))) as [_ Hsurvive].
  split; [exact Hf|]. split; [exact Hu|]. split; [exact He|].
  split; [exact Hc|]. split; [exact Hline|]. split; [exact Hm|].
  exact (Hsurvive eq_refl).
Defined.

(** C6 fails on the code.  Lines 154-155 put the document path in the
    place of the placeholder so that the match passes the test of line 170,
    but that test compares the match path after [filepath.Abs] with a
    document path that never went through it: for the document
    "file:///tmp/./a.c" the placeholder is replaced by "/tmp/./a.c", which
    [filepath.Abs] turns into "/tmp/a.c", and the match reported as
    "stdin:3:4:bad" is dropped instead of being attributed to the
    document. *)
Lemma lint_stdin_placeholder_dropped :
  Posix.fromURI "file:///tmp/./a.c" = inl "/tmp/./a.c"
  /\ GoLib.Match [GoLib.ItemF; GoLib.ItemLit ":"; GoLib.ItemL; GoLib.ItemLit ":";
                  GoLib.ItemC; GoLib.ItemLit ":"; GoLib.ItemM] "stdin:3:4:bad"
     = Some {| F := "stdin"; L := 3; C := 4; M := "bad" |}
  /\ matchFile false (config ["%f:%l:%c:%m"] true 0) "/tmp/./a.c"
       {| F := "stdin"; L := 3; C := 4; M := "bad" |}
     = "/tmp/./a.c"
  /\ GoLib.Abs wd "/tmp/./a.c" = Some "/tmp/a.c"
  /\ posix_lint (failing "lint" "stdin:3:4:bad")
       (handlerWith (config ["%f:%l:%c:%m"] true 0) "file:///tmp/./a.c" "int x")
       "file:///tmp/./a.c"
     = ([EvExec ["sh"; "-c"; "lint"] (Some "int x")], Some []).
Proof. by vm_compute. Qed.

Lemma lint_without_command_witness :
  files (open noCommand) !! uri = Some document
  /\ Posix.fromURI uri = inl "/tmp/a.c"
  /\ LintCommand (configFor (open noCommand) uri) = ""
  /\ EvExec ["sh"; "-c"; ""] None
     ∈ fst (posix_lint (failing "lint" "/tmp/a.c:1:bad") (open noCommand) uri)
  /\ snd (posix_lint (failing "lint" "/tmp/a.c:1:bad") (open noCommand) uri)
     = Some [].
Proof.
  assert (Hf : files (open noCommand) !! uri = Some document)
    by (vm_compute; reflexivity).
  assert (Hu : Posix.fromURI uri = inl "/tmp/a.c") by (vm_compute; reflexivity).
  assert (Hcmd : LintCommand (configFor (open noCommand) uri) = "")
    by (vm_compute; reflexivity).
  destruct (lint_without_command false GoLib.ToLower (GoLib.Abs wd)
              GoLib.ParseRequestURI GoLib.Efm GoLib.NewEfm GoLib.Match
              (failing "lint" "/tmp/a.c:1:bad")
              (open noCommand) uri Hcmd) as (_ & _ & _ & Hgen & _).
  destruct (Hgen document "/tmp/a.c" (efmsOf noCommand) Hf Hu eq_refl)
    as [Hexec Hres].
  split; [exact Hf|]. split; [exact Hu|]. split; [exact Hcmd|].
  split; [exact Hexec|]. exact (Hres eq_refl).
Defined.

(** C7, as stated, fails: for a document whose language has no registered
    configuration the run is not skipped; the shell is started with the
    empty command and its success is logged. *)
Lemma lint_without_command_counterexample :
  configs unregistered !! "go" = None
  /\ configFor unregistered uri = Config_zero
  /\ posix_lint (failing "lint" "") unregistered uri
     = ([EvExec ["sh"; "-c"; ""] None; EvStderr (LogSucceeded "package main")],
        Some []).
Proof. by vm_compute. Qed.

Lemma lint_line_unclamped_witness :
  snd (posix_lint (failing "lint" "/tmp/a.c:3:x")
         (open (config ["%f:%l:%m"] false 5)) uri)
  = Some [at_ (-3) 0 "x"]
  /\ at_ (-3) 0 "x" ∈ [at_ (-3) 0 "x"]
  /\ trace (Posix.linter wd (failing "lint" "/tmp/a.c:3:x") 1
              {| hdl := withRequest (open (config ["%f:%l:%m"] false 5))
                          {| sendq := [uri]; closed := false |};
                 wrk := WRecv; trace := [] |})
     = [EvExec ["sh"; "-c"; "lint"] None; EvNotify uri (Some [at_ (-3) 0 "x"])].
Proof.
  assert (Hs : snd (posix_lint (failing "lint" "/tmp/a.c:3:x")
                      (open (config ["%f:%l:%m"] false 5)) uri)
               = Some [at_ (-3) 0 "x"]) by (vm_compute; reflexivity).
  assert (Hd : at_ (-3) 0 "x" ∈ [at_ (-3) 0 "x"]) by apply list_elem_of_here.
  split; [exact Hs|]. split; [exact Hd|].
  destruct (lint_line_unclamped false GoLib.ToLower (GoLib.Abs wd)
              GoLib.ParseRequestURI GoLib.Efm GoLib.NewEfm GoLib.Match
              _ _ _ _ _ Hs Hd) as [_ Hpub].
  exact (Hpub [] false []).
Defined.

(** C10, as stated, fails: with lint-offset -2 the match of
    "/tmp/a.c:9223372036854775807:x" has line 9223372036854775807, and the
    published line is -9223372036854775808, which is not
    9223372036854775807 - 1 - (-2). *)
Lemma lint_line_unclamped_counterexample :
  GoLib.Match [GoLib.ItemF; GoLib.ItemLit ":"; GoLib.ItemL; GoLib.ItemLit ":";
               GoLib.ItemM] "/tmp/a.c:9223372036854775807:x"
  = Some {| F := "/tmp/a.c"; L := 9223372036854775807; C := 0; M := "x" |}
  /\ trace (Posix.linter wd (failing "lint" "/tmp/a.c:9223372036854775807:x") 1
              {| hdl := withRequest (open (config ["%f:%l:%m"] false (-2)))
                          {| sendq := [uri]; closed := false |};
                 wrk := WRecv; trace := [] |})
     = [EvExec ["sh"; "-c"; "lint"] None;
        EvNotify uri (Some [at_ (-9223372036854775808) 0 "x"])]
  /\ -9223372036854775808 <> 9223372036854775807 - 1 - (-2).
Proof. by vm_compute. Qed.

Lemma linter_two_requests_witness :
  request twoPending = {| sendq := [uri; uri]; closed := false |}
  /\ exists s,
       rtc (Posix.linter_step wd (failing "lint" "/tmp/a.c:1:bad"))
           {| hdl := twoPending; wrk := WRecv; trace := [] |} s
       /\ trace s
          = [EvExec ["sh"; "-c"; "lint"] None;
             EvNotify uri (Some [at_ 0 0 "bad"]);
             EvExec ["sh"; "-c"; "lint"] None;
             EvNotify uri (Some [at_ 0 0 "bad"])].
Proof.
  assert (Hreq : request twoPending = {| sendq := [uri; uri]; closed := false |})
    by (vm_compute; reflexivity).
  split; [exact Hreq|].
  destruct (linter_two_requests false GoLib.ToLower (GoLib.Abs wd)
              GoLib.ParseRequestURI GoLib.Efm GoLib.NewEfm GoLib.Match
              (failing "lint" "/tmp/a.c:1:bad") twoPending uri [] Hreq)
    as ((s & Hrtc & Hterm) & Hall & _).
  exists s. split; [exact Hrtc|].
  exact (proj1 (Hall s Hrtc Hterm)).
Defined.

End Runs.

(** * Further properties of the handler *)

(** ** Path/URI normalizer *)

Lemma IsLetter_not_slash c : IsLetter c = true -> byte_eqb c "/"%char = false.
Proof.
  intros H. destruct (byte_eqb c "/"%char) eqn:E; [|done].
  apply byte_eqb_eq in E. subst c. discriminate H.
Qed.

(** The shape of a string accepted by [isWindowsDriveURI]. *)
Lemma isWindowsDriveURI_shape uri :
  isWindowsDriveURI uri = true ->
  exists a d r,
    uri = String "/" (String a (String ":" (String d r))) /\ IsLetter a = true.
Proof.
  unfold isWindowsDriveURI. destruct (len uri <? 4) eqn:Hlen; [done|].
  apply len_ge_4 in Hlen as (c0 & a & c2 & d & r & ->). simpl.
  intros [[H0%byte_eqb_eq Ha]%andb_prop H2%byte_eqb_eq]%andb_prop.
  subst. by exists a, d, r.
Qed.

Lemma isWindowsDrivePath_slash r : isWindowsDrivePath (String "/" r) = false.
Proof.
  unfold isWindowsDrivePath. destruct (len _ <? 4); [done|]. simpl.
  by destruct (index r 0).
Qed.

Section PathURIProperties.
Variable windows : bool.
Variable ParseRequestURI : string -> option URL.

(** X1.  [fromURI] fails exactly when the text does not parse or its scheme
    is not "file" (compared as it stands); when it succeeds, the path it
    returns is the path of the URI, without its leading "/" if that path has
    the drive form, and is never itself of the drive form "/", letter,
    ":". *)
Theorem fromURI_cases uri :
  match fromURI ParseRequestURI uri with
  | inl p =>
      exists u,
        ParseRequestURI uri = Some u /\ Scheme u = "file"
        /\ Path u = (if isWindowsDriveURI (Path u) then String "/" p else p)
        /\ isWindowsDriveURI p = false
  | inr ErrParse => ParseRequestURI uri = None
  | inr (ErrNotFile scheme) =>
      exists u, ParseRequestURI uri = Some u /\ Scheme u = scheme
                /\ scheme <> "file"
  end.
Proof.
  unfold fromURI. destruct (ParseRequestURI uri) as [u|]; [|done].
  destruct (str_eqb (Scheme u) "file") eqn:Hs; simpl.
  - apply str_eqb_eq in Hs. exists u. split; [done|]. split; [done|].
    destruct (isWindowsDriveURI (Path u)) eqn:Hd; simpl; [|done].
    destruct (isWindowsDriveURI_shape _ Hd) as (a & d & r & -> & Ha).
    split; [done|]. simpl.
    unfold isWindowsDriveURI. destruct (len _ <? 4); [done|]. simpl.
    by rewrite (IsLetter_not_slash a Ha).
  - apply str_eqb_neq in Hs. by exists u.
Qed.

(** X2.  From a file URI back to a URI: when the path of the URI is
    absolute and either not of the drive form or at least five bytes long,
    [toURI] of the path returned by [fromURI] has the "file" scheme and the
    path of the URI with its separators normalized by [filepath.ToSlash]. *)
Theorem toURI_fromURI_roundtrip uri u :
  ParseRequestURI uri = Some u ->
  Scheme u = "file" ->
  HasPrefix (Path u) "/" = true ->
  isWindowsDriveURI (Path u) = false \/ 5 <= len (Path u) ->
  exists p,
    fromURI ParseRequestURI uri = inl p
    /\ Scheme (toURI windows p) = "file"
    /\ Path (toURI windows p) = ToSlash windows (Path u).
Proof.
  intros Hparse Hs Habs Hshape. unfold fromURI. rewrite Hparse, Hs. simpl.
  destruct (isWindowsDriveURI (Path u)) eqn:Hd; simpl.
  - destruct Hshape as [|Hlen]; [done|].
    destruct (isWindowsDriveURI_shape _ Hd) as (a & d & r & HP & Ha).
    rewrite HP in *. simpl.
    exists (String a (String ":" (String d r))). split; [done|]. split; [done|].
    destruct r as [|e r]; [unfold len in Hlen; simpl in Hlen; lia|].
    unfold toURI.
    assert (Hdrive : isWindowsDrivePath (String a (String ":" (String d (String e r))))
                     = true).
    { unfold isWindowsDrivePath. rewrite len_cons_ge_4. simpl. by rewrite Ha. }
    by rewrite Hdrive.
  - exists (Path u). split; [done|]. split; [done|].
    apply HasPrefix_slash in Habs as [r Hr]. rewrite Hr.
    unfold toURI. by rewrite isWindowsDrivePath_slash.
Qed.
End PathURIProperties.

(** ** Document store *)

(** X3.  [closeFile] never fails, is idempotent and leaves the request
    channel alone; once a document is closed, [updateFile] on it fails with
    "document not found" and changes nothing. *)
Theorem closeFile_then_updateFile h uri text :
  snd (closeFile h uri) = None
  /\ files (fst (closeFile h uri)) !! uri = None
  /\ request (fst (closeFile h uri)) = request h
  /\ fst (closeFile (fst (closeFile h uri)) uri) = fst (closeFile h uri)
  /\ updateFile (fst (closeFile h uri)) uri text
     = (fst (closeFile h uri), Some (ErrDocumentNotFound uri)).
Proof.
  unfold closeFile, withFiles. simpl.
  split; [done|]. split; [apply lookup_delete_eq|]. split; [done|]. split.
  - f_equal. apply delete_id, lookup_delete_eq.
  - apply updateFile_absent. simpl. apply lookup_delete_eq.
Qed.


(** ** The lint pipeline and the store *)

Lemma Split_lines_app b1 b2 :
  Split_lines (b1 +:+ String "010" b2) = Split_lines b1 ++ Split_lines b2.
Proof.
  induction b1 as [|c r IH].
  - done.
  - change (String c r +:+ String "010" b2)
      with (String c (r +:+ String "010" b2)).
    simpl. rewrite IH.
    destruct (byte_eqb c "010"); [done|].
    pose proof (Split_lines_nonempty r).
    by destruct (Split_lines r).
Qed.

Section StoreAndLint.
Variable windows : bool.
Variable ToLower : string -> string.
Variable Abs : string -> option string.
Variable ParseRequestURI : string -> option URL.
Variable Efm : Type.
Variable NewEfm : string -> option Efm.
Variable Match : Efm -> string -> option Match_.
Variable CombinedOutput : list string -> option string -> string * bool.

Local Abbreviation diagnosticOf' := (diagnosticOf windows ToLower Abs Efm Match).
Local Abbreviation diagnosticsOf' := (diagnosticsOf windows ToLower Abs Efm Match).
Local Abbreviation normalize' := (normalize windows ToLower).
Local Abbreviation lint' :=
  (lint windows ToLower Abs ParseRequestURI Efm NewEfm Match CombinedOutput).
Local Abbreviation linter' :=
  (linter windows ToLower Abs ParseRequestURI Efm NewEfm Match CombinedOutput).
Local Abbreviation stdinOf config f :=
  (if LintStdin config then Some (Text f) else None).

(** [lint] looks at one document and at the configurations. *)
Lemma lint_frame h1 h2 uri :
  files h1 !! uri = files h2 !! uri ->
  configs h1 = configs h2 ->
  lint' h1 uri = lint' h2 uri.
Proof.
  intros Hf Hc. unfold lint, configFor. by rewrite Hf, Hc.
Qed.

Lemma lint_absent h uri :
  files h !! uri = None -> lint' h uri = ([EvStderr LogDocumentNotFound], None).
Proof. intros Hf. unfold lint. by rewrite Hf. Qed.

(** X5.  Opening, updating, saving or closing one document does not change
    the outcome of a lint run for another document. *)
Theorem lint_other_document h uri uri' languageId text :
  uri <> uri' ->
  lint' (fst (openFile h uri languageId)) uri' = lint' h uri'
  /\ lint' (fst (updateFile h uri text)) uri' = lint' h uri'
  /\ lint' (fst (saveFile h uri)) uri' = lint' h uri'
  /\ lint' (fst (closeFile h uri)) uri' = lint' h uri'.
Proof.
  intros Hne. split; [|split; [|split]].
  - apply lint_frame; [|done]. simpl. by rewrite lookup_insert_ne.
  - destruct (files h !! uri) as [f|] eqn:Hf.
    + rewrite (updateFile_open _ _ _ _ Hf). apply lint_frame; [|done].
      simpl. by rewrite lookup_insert_ne.
    + by rewrite (updateFile_absent _ _ _ Hf).
  - done.
  - apply lint_frame; [|done]. simpl. by rewrite lookup_delete_ne.
Qed.


(** X7.  Closing a document does not withdraw a request already sent for
    it: after an update followed by a close the request is still in the
    queue, and the dispatcher serves it by logging "document not found" and
    publishing a nil list, without running the command. *)
Theorem closeFile_keeps_pending_request h uri text f tr :
  files h !! uri = Some f ->
  sendq (request h) = [] ->
  sendq (request (fst (closeFile (fst (updateFile h uri text)) uri))) = [uri]
  /\ trace (linter' 1 {| hdl := fst (closeFile (fst (updateFile h uri text)) uri);
                         wrk := WRecv; trace := tr |})
     = tr ++ [EvStderr LogDocumentNotFound; EvNotify uri None].
Proof.
  intros Hf Hq. rewrite (updateFile_open _ _ _ _ Hf).
  unfold closeFile, withFiles, chan_send. simpl. rewrite Hq. simpl.
  split; [done|].
  rewrite !lint_withRequest, lint_absent; [done|]. simpl. apply lookup_delete_eq.
Qed.

(** X8.  A lint run executes at most one command, the configured one in the
    platform shell, and it is the first effect of the run; the run returns
    a nil slice exactly when it executed none, in which case all it did was
    to write one message to the error stream. *)
Theorem lint_effects h uri :
  (snd (lint' h uri) = None /\ exists msg, fst (lint' h uri) = [EvStderr msg])
  \/ (exists ds f logs,
        snd (lint' h uri) = Some ds
        /\ files h !! uri = Some f
        /\ fst (lint' h uri)
           = EvExec (shell windows (LintCommand (configFor h uri)))
                    (stdinOf (configFor h uri) f) :: logs
        /\ forall argv stdin, EvExec argv stdin ∉ logs).
Proof.
  destruct (files h !! uri) as [f|] eqn:Hf;
    [|left; rewrite (lint_absent _ _ Hf); eauto].
  destruct (fromURI ParseRequestURI uri) as [fname|e] eqn:Hu;
    [|left; unfold lint; rewrite Hf, Hu; eauto].
  destruct (NewErrorformat Efm NewEfm (LintErrorFormats (configFor h uri)))
    as [efms|] eqn:He;
    [|left; unfold lint; rewrite Hf, Hu, He; eauto].
  destruct (CombinedOutput (shell windows (LintCommand (configFor h uri)))
              (stdinOf (configFor h uri) f)) as [b ok] eqn:Hc.
  right. rewrite (lint_run _ _ _ _ _ _ _ _ h uri f fname efms b ok Hf Hu He Hc).
  simpl. eexists _, f, _. split; [done|]. split; [done|]. split; [done|].
  intros argv stdin Hin. destruct ok.
  - apply list_elem_of_singleton in Hin. discriminate Hin.
  - by apply elem_of_nil in Hin.
Qed.

(** X9.  When the command exits with status zero the run reports nothing,
    whatever the command printed: it logs the success and returns an empty,
    non-nil slice. *)
Theorem lint_zero_exit_status h uri f fname efms b :
  files h !! uri = Some f ->
  fromURI ParseRequestURI uri = inl fname ->
  NewErrorformat Efm NewEfm (LintErrorFormats (configFor h uri)) = Some efms ->
  CombinedOutput (shell windows (LintCommand (configFor h uri)))
                 (stdinOf (configFor h uri) f) = (b, true) ->
  lint' h uri
  = ([EvExec (shell windows (LintCommand (configFor h uri)))
             (stdinOf (configFor h uri) f);
      EvStderr (LogSucceeded (Text f))],
     Some []).
Proof.
  intros Hf Hu He Hc.
  by rewrite (lint_run _ _ _ _ _ _ _ _ h uri f fname efms b true Hf Hu He Hc).
Qed.

(** X10.  With no pattern configured -- the list unset or empty -- a lint
    run of an open document with a file URI reports nothing, whatever the
    command prints and however it exits. *)
Theorem lint_without_patterns h uri f fname :
  files h !! uri = Some f ->
  fromURI ParseRequestURI uri = inl fname ->
  slice_elems (LintErrorFormats (configFor h uri)) = [] ->
  snd (lint' h uri) = Some [].
Proof.
  intros Hf Hu Hp.
  assert (He : NewErrorformat Efm NewEfm (LintErrorFormats (configFor h uri))
               = Some []) by (unfold NewErrorformat; by rewrite Hp).
  destruct (CombinedOutput (shell windows (LintCommand (configFor h uri)))
              (stdinOf (configFor h uri) f)) as [b ok] eqn:Hc.
  rewrite (lint_run _ _ _ _ _ _ _ _ h uri f fname [] b ok Hf Hu He Hc). simpl.
  destruct ok; [done|]. f_equal. unfold diagnosticsOf.
  induction (Split_lines b) as [|l ls IH]; [done|]. by simpl.
Qed.

(** X11.  Output lines that no configured pattern matches are dropped
    silently: when no line of the output matches any pattern, the run
    returns an empty slice and nothing but the command shows in its
    effects. *)
Theorem lint_unmatched_output h uri f fname efms b :
  files h !! uri = Some f ->
  fromURI ParseRequestURI uri = inl fname ->
  NewErrorformat Efm NewEfm (LintErrorFormats (configFor h uri)) = Some efms ->
  CombinedOutput (shell windows (LintCommand (configFor h uri)))
                 (stdinOf (configFor h uri) f) = (b, false) ->
  (forall line ef, line ∈ Split_lines b -> ef ∈ efms -> Match ef line = None) ->
  lint' h uri
  = ([EvExec (shell windows (LintCommand (configFor h uri)))
             (stdinOf (configFor h uri) f)],
     Some []).
Proof.
  intros Hf Hu He Hc Hnone.
  rewrite (lint_run _ _ _ _ _ _ _ _ h uri f fname efms b false Hf Hu He Hc).
  simpl. do 2 f_equal.
  destruct (diagnosticsOf' (configFor h uri) (normalize' fname) efms b)
    as [|d ds] eqn:Hd; [done|].
  assert (Hin : d ∈ diagnosticsOf' (configFor h uri) (normalize' fname) efms b)
    by (rewrite Hd; apply list_elem_of_here).
  apply elem_of_diagnosticsOf in Hin as (line & ef & Hline & Hef & Hof).
  apply diagnosticOf_Some in Hof as (m & path & Hm & _).
  by rewrite (Hnone line ef Hline Hef) in Hm.
Qed.

(** X12.  The number of diagnostics of a run is at most the number of
    output lines times the number of configured patterns. *)
Theorem lint_diagnostics_bound h uri f fname efms b ok :
  files h !! uri = Some f ->
  fromURI ParseRequestURI uri = inl fname ->
  NewErrorformat Efm NewEfm (LintErrorFormats (configFor h uri)) = Some efms ->
  CombinedOutput (shell windows (LintCommand (configFor h uri)))
                 (stdinOf (configFor h uri) f) = (b, ok) ->
  exists ds,
    snd (lint' h uri) = Some ds
    /\ (length ds
        <= length (Split_lines b)
           * length (slice_elems (LintErrorFormats (configFor h uri))))%nat.
Proof.
  intros Hf Hu He Hc.
  rewrite (lint_run _ _ _ _ _ _ _ _ h uri f fname efms b ok Hf Hu He Hc).
  simpl. eexists. split; [done|].
  rewrite (length_mapM _ _ _ He).
  destruct ok; simpl; [lia|]. unfold diagnosticsOf.
  induction (Split_lines b) as [|l ls IH]; simpl; [lia|].
  rewrite length_app.
  pose proof (length_omap_le (diagnosticOf' (configFor h uri) (normalize' fname) l)
                efms).
  lia.
Qed.
End StoreAndLint.

Section OutputOrder.
Variable windows : bool.
Variable ToLower : string -> string.
Variable Abs : string -> option string.
Variable ParseRequestURI : string -> option URL.
Variable Efm : Type.
Variable NewEfm : string -> option Efm.
Variable Match : Efm -> string -> option Match_.

Local Abbreviation lintWith CombinedOutput :=
  (lint windows ToLower Abs ParseRequestURI Efm NewEfm Match CombinedOutput).
Local Abbreviation stdinOf config f :=
  (if LintStdin config then Some (Text f) else None).

(** X13.  Diagnostics come in the order of the output lines: when a failing
    command prints the output [b1], a newline and the output [b2], the run
    returns the diagnostics it returns for [b1] alone followed by those it
    returns for [b2] alone. *)
Theorem lint_output_order
    (first second both : list string -> option string -> string * bool)
    h uri f fname efms b1 b2 :
  files h !! uri = Some f ->
  fromURI ParseRequestURI uri = inl fname ->
  NewErrorformat Efm NewEfm (LintErrorFormats (configFor h uri)) = Some efms ->
  first (shell windows (LintCommand (configFor h uri)))
        (stdinOf (configFor h uri) f) = (b1, false) ->
  second (shell windows (LintCommand (configFor h uri)))
         (stdinOf (configFor h uri) f) = (b2, false) ->
  both (shell windows (LintCommand (configFor h uri)))
       (stdinOf (configFor h uri) f) = (b1 +:+ String "010" b2, false) ->
  exists ds1 ds2,
    snd (lintWith first h uri) = Some ds1
    /\ snd (lintWith second h uri) = Some ds2
    /\ snd (lintWith both h uri) = Some (ds1 ++ ds2).
Proof.
  intros Hf Hu He H1 H2 H12.
  rewrite (lint_run _ _ _ _ _ _ _ _ h uri f fname efms b1 false Hf Hu He H1).
  rewrite (lint_run _ _ _ _ _ _ _ _ h uri f fname efms b2 false Hf Hu He H2).
  rewrite (lint_run _ _ _ _ _ _ _ _ h uri f fname efms _ false Hf Hu He H12).
  simpl. eexists _, _. split; [done|]. split; [done|]. f_equal.
  unfold diagnosticsOf. by rewrite Split_lines_app, map_app, concat_app.
Qed.
End OutputOrder.

Lemma configFor_updateFile h uri text uri' :
  configFor (fst (updateFile h uri text)) uri' = configFor h uri'.
Proof.
  destruct (files h !! uri) as [f|] eqn:Hf.
  - rewrite (updateFile_open _ _ _ _ Hf). unfold configFor. simpl.
    destruct (decide (uri = uri')) as [<-|Hne].
    + by rewrite lookup_insert_eq, Hf.
    + by rewrite lookup_insert_ne.
  - by rewrite (updateFile_absent _ _ _ Hf).
Qed.

Section ColumnsAndText.
Variable windows : bool.
Variable ToLower : string -> string.
Variable Abs : string -> option string.
Variable ParseRequestURI : string -> option URL.
Variable Efm : Type.
Variable NewEfm : string -> option Efm.
Variable Match : Efm -> string -> option Match_.
Variable CombinedOutput : list string -> option string -> string * bool.

Local Abbreviation lint' :=
  (lint windows ToLower Abs ParseRequestURI Efm NewEfm Match CombinedOutput).

(** X14.  When the matcher reports columns between 0 and the largest [int],
    no diagnostic has a negative column: the column is the reported one
    minus one, except that the reported columns 0 and 1 both give 0. *)
Theorem lint_column_not_negative h uri ds d :
  (forall ef line m, Match ef line = Some m -> 0 <= C m <= int_max) ->
  snd (lint' h uri) = Some ds ->
  d ∈ ds ->
  0 <= Character (Start (Range_ d))
  /\ Character (End_ (Range_ d)) = Character (Start (Range_ d))
  /\ exists line ef m,
       Match ef line = Some m
       /\ Character (Start (Range_ d)) = Z.max (C m) 1 - 1.
Proof.
  intros Hcol Hs Hd.
  destruct (lint_diagnostic_origin _ _ _ _ _ _ _ _ h uri ds d Hs Hd)
    as (fname & line & ef & m & path & _ & Hm & _ & _ & ->).
  pose proof (Hcol ef line m Hm) as HC.
  assert (Hchar : Character (Start (Range_ (diagnosticAt (configFor h uri) m)))
                  = Z.max (C m) 1 - 1).
  { unfold diagnosticAt, int_sub. simpl.
    unfold int_max in HC.
    destruct (C m =? 0) eqn:E.
    - apply Z.eqb_eq in E. rewrite E. reflexivity.
    - apply Z.eqb_neq in E.
      rewrite int_wrap_id by (unfold int_range, int_min, int_max; lia). lia. }
  split; [rewrite Hchar; lia|]. split; [done|]. by exists line, ef, m.
Qed.

(** X15.  Without standard-input delivery the text of the document plays no
    part in the diagnostics: after any update of the document the run
    executes the same command, with no input, and returns the same slice. *)
Theorem lint_ignores_text_without_stdin h uri text f :
  files h !! uri = Some f ->
  LintStdin (configFor h uri) = false ->
  snd (lint' (fst (updateFile h uri text)) uri) = snd (lint' h uri)
  /\ (forall argv stdin,
        EvExec argv stdin ∈ fst (lint' (fst (updateFile h uri text)) uri) <->
        EvExec argv stdin ∈ fst (lint' h uri))
  /\ (forall argv stdin,
        EvExec argv stdin ∈ fst (lint' h uri) -> stdin = None).
Proof.
  intros Hf Hstdin.
  assert (Hf' : files (fst (updateFile h uri text)) !! uri
                = Some {| LanguageId := LanguageId f; Text := text |})
    by (rewrite (updateFile_open _ _ _ _ Hf); apply lookup_insert_eq).
  assert (Hcfg : configFor (fst (updateFile h uri text)) uri = configFor h uri)
    by apply configFor_updateFile.
  destruct (fromURI ParseRequestURI uri) as [fname|e] eqn:Hu.
  2:{ unfold lint. rewrite Hf', Hf, Hu. simpl. repeat split; try done.
      intros argv stdin Hin. apply list_elem_of_singleton in Hin.
      discriminate Hin. }
  destruct (NewErrorformat Efm NewEfm (LintErrorFormats (configFor h uri)))
    as [efms|] eqn:He.
  2:{ unfold lint. rewrite Hf', Hf, Hu, Hcfg, He. simpl. repeat split; try done.
      intros argv stdin Hin. apply list_elem_of_singleton in Hin.
      discriminate Hin. }
  destruct (CombinedOutput (shell windows (LintCommand (configFor h uri))) None)
    as [b ok] eqn:Hc.
  assert (Hrun : lint' h uri
    = (EvExec (shell windows (LintCommand (configFor h uri))) None
         :: (if ok then [EvStderr (LogSucceeded (Text f))] else []),
       Some (if ok then []
             else diagnosticsOf windows ToLower Abs Efm Match (configFor h uri)
                    (normalize windows ToLower fname) efms b))).
  { rewrite (lint_run _ _ _ _ _ _ _ _ h uri f fname efms b ok Hf Hu He);
      by rewrite Hstdin. }
  assert (Hrun' : lint' (fst (updateFile h uri text)) uri
    = (EvExec (shell windows (LintCommand (configFor h uri))) None
         :: (if ok then [EvStderr (LogSucceeded text)] else []),
       Some (if ok then []
             else diagnosticsOf windows ToLower Abs Efm Match (configFor h uri)
                    (normalize windows ToLower fname) efms b))).
  { rewrite (lint_run _ _ _ _ _ _ _ _ (fst (updateFile h uri text)) uri
               {| LanguageId := LanguageId f; Text := text |} fname efms b ok
               Hf' Hu); rewrite Hcfg; [|done|by rewrite Hstdin].
    by rewrite Hstdin. }
  rewrite Hrun, Hrun'. simpl. split; [done|]. split.
  - intros argv stdin. rewrite !elem_of_cons.
    destruct ok; split; intros [H|H]; auto;
      try (apply list_elem_of_singleton in H; discriminate H);
      by apply elem_of_nil in H.
  - intros argv stdin. rewrite elem_of_cons. intros [H|H]; [by injection H|].
    destruct ok; [apply list_elem_of_singleton in H; discriminate H|].
    by apply elem_of_nil in H.
Qed.

(** X16.  With standard-input delivery, the run of an updated document
    gives the command the text of that update as its input. *)
Theorem lint_stdin_is_latest_text h uri text f fname efms :
  files h !! uri = Some f ->
  fromURI ParseRequestURI uri = inl fname ->
  NewErrorformat Efm NewEfm (LintErrorFormats (configFor h uri)) = Some efms ->
  LintStdin (configFor h uri) = true ->
  exists logs,
    fst (lint' (fst (updateFile h uri text)) uri)
    = EvExec (shell windows (LintCommand (configFor h uri))) (Some text) :: logs.
Proof.
  intros Hf Hu He Hstdin.
  assert (Hf' : files (fst (updateFile h uri text)) !! uri
                = Some {| LanguageId := LanguageId f; Text := text |})
    by (rewrite (updateFile_open _ _ _ _ Hf); apply lookup_insert_eq).
  assert (Hcfg : configFor (fst (updateFile h uri text)) uri = configFor h uri)
    by apply configFor_updateFile.
  destruct (CombinedOutput (shell windows (LintCommand (configFor h uri)))
              (Some text)) as [b ok] eqn:Hc.
  rewrite (lint_run _ _ _ _ _ _ _ _ (fst (updateFile h uri text)) uri
             {| LanguageId := LanguageId f; Text := text |} fname efms b ok
             Hf' Hu); rewrite Hcfg; [|done|by rewrite Hstdin].
  rewrite Hstdin. simpl. eauto.
Qed.
End ColumnsAndText.

(** ** The dispatcher, for any number of requests *)

Section DispatcherProperties.
Variable windows : bool.
Variable ToLower : string -> string.
Variable Abs : string -> option string.
Variable ParseRequestURI : string -> option URL.
Variable Efm : Type.
Variable NewEfm : string -> option Efm.
Variable Match : Efm -> string -> option Match_.
Variable CombinedOutput : list string -> option string -> string * bool.

Local Abbreviation lint' :=
  (lint windows ToLower Abs ParseRequestURI Efm NewEfm Match CombinedOutput).
Local Abbreviation linter_step' :=
  (linter_step windows ToLower Abs ParseRequestURI Efm NewEfm Match
               CombinedOutput).
(** The effects of serving one request: the lint run, then its publish. *)
Local Abbreviation served h uri :=
  (fst (lint' h uri) ++ [EvNotify uri (snd (lint' h uri))]).

Lemma linter_serves_queue n :
  forall q h tr s,
    length q = n ->
    request h = {| sendq := q; closed := false |} ->
    rtc linter_step' {| hdl := h; wrk := WRecv; trace := tr |} s ->
    (forall s', ~ linter_step' s s') ->
    exists order,
      order ≡ₚ q
      /\ trace s = tr ++ concat (map (fun uri => served h uri) order)
      /\ wrk s = WRecv
      /\ sendq (request (hdl s)) = []
      /\ files (hdl s) = files h
      /\ configs (hdl s) = configs h.
Proof.
  induction n as [|n IH]; intros q h tr s Hlen Hreq Hrtc Hterm.
  - destruct q; [|done].
    apply rtc_inv in Hrtc as [<-|(y & Hstep & _)].
    + exists []. simpl. rewrite Hreq, app_nil_r. done.
    + by apply no_step_when_idle in Hstep.
  - apply rtc_inv in Hrtc as [<-|(y & Hstep & Hrtc)].
    { destruct q as [|uri q]; [done|].
      destruct (Hterm _ (step_recv _ _ _ _ _ _ _ _ h tr [] uri q false Hreq)). }
    inversion Hstep as [h0 tr0 q1 uri q2 cl Hq | h0 tr0 Hq | |]; subst;
      rewrite Hreq in Hq; simplify_eq.
    apply rtc_inv in Hrtc as [<-|(y & Hstep2 & Hrtc)].
    { destruct (Hterm _ (step_lint _ _ _ _ _ _ _ _ _ tr uri)). }
    inversion Hstep2; subst.
    apply rtc_inv in Hrtc as [<-|(y & Hstep3 & Hrtc)].
    { destruct (Hterm _ (step_notify _ _ _ _ _ _ _ _ _ _ uri _)). }
    inversion Hstep3; subst.
    rewrite length_app in Hlen. simpl in Hlen.
    assert (Hlen' : length (q1 ++ q2) = n) by (rewrite length_app; lia).
    destruct (IH (q1 ++ q2)
                (withRequest h {| sendq := q1 ++ q2; closed := false |})
                _ s Hlen' eq_refl Hrtc Hterm)
      as (order & Hperm & Htrace & Hw & Hq & Hfiles & Hconfigs).
    exists (uri :: order). split.
    { rewrite Hperm. apply Permutation_middle. }
    split; [|done]. rewrite Htrace. simpl. by rewrite <- !app_assoc.
Qed.

(** X17.  With the request channel open, whenever the dispatcher has come
    to a point where it has nothing left to do -- which supposes that every
    lint command it started has returned -- then, whatever the order in
    which it took the waiting requests, it has served every request of the
    queue exactly once -- equal requests are not merged -- each by one lint
    run followed at once by its publish, and it has left the documents and
    the configurations as they were. *)
Theorem linter_serves_every_request (h : langHandler) tr s :
  closed (request h) = false ->
  rtc linter_step' {| hdl := h; wrk := WRecv; trace := tr |} s ->
  (forall s', ~ linter_step' s s') ->
  exists order,
    order ≡ₚ sendq (request h)
    /\ trace s = tr ++ concat (map (fun uri => served h uri) order)
    /\ wrk s = WRecv
    /\ sendq (request (hdl s)) = []
    /\ files (hdl s) = files h
    /\ configs (hdl s) = configs h.
Proof.
  intros Hcl Hrtc Hterm.
  assert (Hreq : request h = {| sendq := sendq (request h); closed := false |})
    by (destruct (request h); simpl in *; by subst).
  by apply (linter_serves_queue (length (sendq (request h))) (sendq (request h))
              h tr s eq_refl).
Qed.

Lemma linter_step_preserves s s' :
  linter_step' s s' ->
  configs (hdl s') = configs (hdl s)
  /\ files (hdl s') = files (hdl s)
  /\ closed (request (hdl s')) = closed (request (hdl s))
  /\ sendq (request (hdl s')) `sublist_of` sendq (request (hdl s))
  /\ trace s `prefix_of` trace s'.
Proof.
  intros Hstep.
  inversion Hstep as [h tr q1 uri q2 cl Hq | h tr Hq | h tr uri | h tr uri ds];
    subst; simpl; repeat split; try done;
    try (by apply prefix_app_r).
  - by rewrite Hq.
  - rewrite Hq. simpl. apply sublist_app; [done|]. by apply sublist_cons.
Qed.

(** X18.  The dispatcher only consumes requests and produces effects: along
    any of its executions the documents, the configurations and the closed
    flag of the channel stay as they are, the queue only loses requests, and
    the effects already performed remain a prefix of the trace. *)
Theorem linter_never_writes_store (s s' : system) :
  rtc linter_step' s s' ->
  configs (hdl s') = configs (hdl s)
  /\ files (hdl s') = files (hdl s)
  /\ closed (request (hdl s')) = closed (request (hdl s))
  /\ sendq (request (hdl s')) `sublist_of` sendq (request (hdl s))
  /\ trace s `prefix_of` trace s'.
Proof.
  induction 1 as [s|s1 s2 s3 Hstep _ IH]; [done|].
  destruct (linter_step_preserves _ _ Hstep) as (Hc & Hf & Hcl & Hq & Htr).
  destruct IH as (Hc' & Hf' & Hcl' & Hq' & Htr').
  split; [congruence|]. split; [congruence|]. split; [congruence|].
  split; by etrans.
Qed.

(** X19.  Once the request channel is closed with no sender waiting, the
    dispatcher leaves its loop without any further effect, and it never
    does anything again. *)
Theorem linter_exits_when_closed (h : langHandler) (tr : list event) :
  request h = {| sendq := []; closed := true |} ->
  linter_step' {| hdl := h; wrk := WRecv; trace := tr |}
               {| hdl := h; wrk := WExit; trace := tr |}
  /\ (forall s', ~ linter_step' {| hdl := h; wrk := WExit; trace := tr |} s')
  /\ (forall s,
        rtc linter_step' {| hdl := h; wrk := WRecv; trace := tr |} s ->
        (forall s', ~ linter_step' s s') ->
        s = {| hdl := h; wrk := WExit; trace := tr |}).
Proof.
  intros Hreq. split; [by apply step_closed|].
  split; [intros s' Hstep; inversion Hstep|].
  intros s Hrtc Hterm.
  apply rtc_inv in Hrtc as [<-|(y & Hstep & Hrtc)].
  { destruct (Hterm _ (step_closed _ _ _ _ _ _ _ _ h tr Hreq)). }
  inversion Hstep as [h0 tr0 q1 uri q2 cl Hq | h0 tr0 Hq | |]; subst.
  - rewrite Hreq in Hq. injection Hq as Hq _. symmetry in Hq.
    by apply pick_of_none in Hq.
  - apply rtc_inv in Hrtc as [<-|(y & Hstep2 & _)]; [done|].
    inversion Hstep2.
Qed.
End DispatcherProperties.

(** ** Request handling *)

Section RequestProperties.
Variable windows : bool.
Variable ToLower : string -> string.
Variable Abs : string -> option string.
Variable ParseRequestURI : string -> option URL.
Variable Efm : Type.
Variable NewEfm : string -> option Efm.
Variable Match : Efm -> string -> option Match_.
Variable CombinedOutput : list string -> option string -> string * bool.
Variable Unmarshal : string -> option DidOpenTextDocumentParams.
Variable handleInitialize : langHandler -> Request -> langHandler * option handle_error.
Variable handleShutdown : langHandler -> Request -> langHandler * option handle_error.
Variable handleTextDocumentDidChange :
  langHandler -> Request -> langHandler * option handle_error.
Variable handleTextDocumentDidSave :
  langHandler -> Request -> langHandler * option handle_error.
Variable handleTextDocumentDidClose :
  langHandler -> Request -> langHandler * option handle_error.

Local Abbreviation lint' :=
  (lint windows ToLower Abs ParseRequestURI Efm NewEfm Match CombinedOutput).
Local Abbreviation linter' :=
  (linter windows ToLower Abs ParseRequestURI Efm NewEfm Match CombinedOutput).
Local Abbreviation didOpen' := (handleTextDocumentDidOpen Unmarshal).
Local Abbreviation handle' :=
  (handle Unmarshal handleInitialize handleShutdown handleTextDocumentDidChange
          handleTextDocumentDidSave handleTextDocumentDidClose).

(** X20.  A didOpen notification that fails changes nothing: it fails only
    for missing parameters or parameters that cannot be decoded, never with
    "document not found", and in both cases no document is stored and no
    request is sent. *)
Theorem didOpen_failure_changes_nothing h params err :
  snd (didOpen' h params) = Some err ->
  fst (didOpen' h params) = h
  /\ ((params = None /\ err = ErrInvalidParams)
      \/ (exists raw, params = Some raw /\ Unmarshal raw = None
                      /\ err = ErrUnmarshal)).
Proof.
  unfold handleTextDocumentDidOpen.
  destruct params as [raw|]; [|intros [= <-]; split; [done|by left]].
  destruct (Unmarshal raw) as [p|] eqn:Hp;
    [|intros [= <-]; split; [done|right; by exists raw]].
  simpl.
  rewrite (updateFile_open _ (URI p) (DocText p)
             {| LanguageId := LanguageID p; Text := "" |});
    [done|apply lookup_insert_eq].
Qed.

(** X21.  A request whose method is none of the six the server knows is
    answered with the "method not found" error naming the method; no request
    handler runs and the handler is left as it is. *)
Theorem handle_unknown_method (h : langHandler) (req : Request) :
  Method req <> "initialize" ->
  Method req <> "shutdown" ->
  Method req <> "textDocument/didOpen" ->
  Method req <> "textDocument/didChange" ->
  Method req <> "textDocument/didSave" ->
  Method req <> "textDocument/didClose" ->
  handle' h req
  = (h, Some (ErrMethodNotFound ("method not supported: " +:+ Method req))).
Proof.
  intros H1 H2 H3 H4 H5 H6. unfold handle.
  by rewrite (proj2 (str_eqb_neq _ _) H1), (proj2 (str_eqb_neq _ _) H2),
       (proj2 (str_eqb_neq _ _) H3), (proj2 (str_eqb_neq _ _) H4),
       (proj2 (str_eqb_neq _ _) H5), (proj2 (str_eqb_neq _ _) H6).
Qed.


End RequestProperties.

(** ** The errorformat model reports columns from 0 to the largest [int] *)

Section MatchModel.
Import GoLib.

Lemma Atoi_digits_range s :
  forallb is_digit (list_ascii_of_string s) = true -> 0 <= Atoi s <= int_max.
Proof.
  intros Hd. unfold Atoi.
  assert (Hnn : forall l acc,
            forallb is_digit l = true -> 0 <= acc ->
            0 <= fold_left (fun acc c => 10 * acc + (Z.of_N (N_of_ascii c) - 48))
                           l acc).
  { induction l as [|c l IH]; intros acc Hl Hacc; simpl; [done|].
    simpl in Hl. apply andb_prop in Hl as [Hc Hl]. apply IH; [done|].
    unfold is_digit in Hc. apply andb_prop in Hc as [Hc _].
    apply Z.leb_le in Hc. lia. }
  pose proof (Hnn _ 0 Hd ltac:(lia)) as Hv.
  destruct (_ <=? int_max) eqn:E; [apply Z.leb_le in E; lia|].
  unfold int_max. lia.
Qed.

Lemma prefixes_forallb p s a b :
  (a, b) ∈ prefixes p s -> forallb p (list_ascii_of_string a) = true.
Proof.
  revert a b. induction s as [|c r IH]; intros a b Hin; simpl in Hin.
  { by apply elem_of_nil in Hin. }
  destruct (p c) eqn:Hc; [|by apply elem_of_nil in Hin].
  apply elem_of_cons in Hin as [[= -> ->]|Hin].
  - simpl. by rewrite Hc.
  - apply list_elem_of_fmap in Hin as ([a' b'] & [= -> ->] & Hin).
    simpl. rewrite Hc. simpl. by eapply IH.
Qed.

Lemma first_some_Some {A B} (f : A -> option B) l y :
  first_some f l = Some y -> exists x, x ∈ l /\ f x = Some y.
Proof.
  induction l as [|x l IH]; simpl; [done|].
  destruct (f x) as [z|] eqn:Hx.
  - intros [= <-]. exists x. split; [apply list_elem_of_here|done].
  - intros (x' & Hin & Hx')%IH. exists x'. split; [|done].
    by apply list_elem_of_further.
Qed.

Lemma match_items_column efm :
  forall s m m',
    0 <= C m <= int_max ->
    match_items efm s m = Some m' ->
    0 <= C m' <= int_max.
Proof.
  induction efm as [|i rest IH]; intros s m m' Hm; simpl.
  - destruct (str_eqb s ""); [|done]. by intros [= <-].
  - intros ([text s'] & Hin & Hrest)%first_some_Some.
    apply (IH s' (store i text m) m'); [|done].
    destruct i; simpl; try done.
    simpl in Hin. apply list_elem_of_In, in_rev, list_elem_of_In in Hin.
    apply Atoi_digits_range. by eapply prefixes_forallb.
Qed.

Lemma Match_column efm s m :
  Match efm s = Some m -> 0 <= C m <= int_max.
Proof.
  apply match_items_column. simpl. unfold int_max. lia.
Qed.
End MatchModel.

(** ** The further properties on concrete inputs *)

Section MoreRuns.
Import Posix Example.

Local Abbreviation posix thm out :=
  (thm false GoLib.ToLower (GoLib.Abs wd) GoLib.ParseRequestURI
       GoLib.Efm GoLib.NewEfm GoLib.Match out).
Local Abbreviation posix_lint out := (Posix.lint wd out).
Local Abbreviation posix_linter out := (Posix.linter wd out).
Local Abbreviation posix_step out := (Posix.linter_step wd out).

Lemma toURI_fromURI_roundtrip_witness :
  GoLib.ParseRequestURI "file:///C:/src/main.c"
  = Some (mkURL "file" "" "" "/C:/src/main.c" "")
  /\ 5 <= len "/C:/src/main.c"
  /\ exists p,
       Posix.fromURI "file:///C:/src/main.c" = inl p
       /\ Scheme (toURI false p) = "file"
       /\ Path (toURI false p) = "/C:/src/main.c".
Proof.
  assert (Hparse : GoLib.ParseRequestURI "file:///C:/src/main.c"
                   = Some (mkURL "file" "" "" "/C:/src/main.c" ""))
    by (vm_compute; reflexivity).
  assert (Hlen : 5 <= len "/C:/src/main.c") by (vm_compute; discriminate).
  split; [exact Hparse|]. split; [exact Hlen|].
  exact (toURI_fromURI_roundtrip false GoLib.ParseRequestURI
           "file:///C:/src/main.c" _ Hparse eq_refl eq_refl (or_intror Hlen)).
Defined.


Lemma lint_other_document_witness :
  otherURI <> uri
  /\ posix_lint (failing "lint" "/tmp/a.c:1:bad")
       (fst (closeFile (open bothPatterns) otherURI)) uri
     = posix_lint (failing "lint" "/tmp/a.c:1:bad") (open bothPatterns) uri.
Proof.
  assert (Hne : otherURI <> uri) by discriminate.
  split; [exact Hne|].
  exact (proj2 (proj2 (proj2
           (posix lint_other_document (failing "lint" "/tmp/a.c:1:bad")
                  (open bothPatterns) otherURI uri "c" "" Hne)))).
Defined.


Lemma closeFile_keeps_pending_request_witness :
  files (open bothPatterns) !! uri = Some document
  /\ sendq (request (open bothPatterns)) = []
  /\ trace (posix_linter (failing "lint" "/tmp/a.c:1:bad") 1
              {| hdl := fst (closeFile
                               (fst (updateFile (open bothPatterns) uri "int y"))
                               uri);
                 wrk := WRecv; trace := [] |})
     = [EvStderr LogDocumentNotFound; EvNotify uri None].
Proof.
  assert (Hf : files (open bothPatterns) !! uri = Some document)
    by (vm_compute; reflexivity).
  assert (Hq : sendq (request (open bothPatterns)) = []) by reflexivity.
  split; [exact Hf|]. split; [exact Hq|].
  exact (proj2 (posix closeFile_keeps_pending_request
                      (failing "lint" "/tmp/a.c:1:bad")
                      _ uri "int y" _ [] Hf Hq)).
Defined.

Lemma lint_zero_exit_status_witness :
  files (open bothPatterns) !! uri = Some document
  /\ Posix.fromURI uri = inl "/tmp/a.c"
  /\ succeeding "/tmp/a.c:1:bad"
       (shell false (LintCommand (configFor (open bothPatterns) uri))) None
     = ("/tmp/a.c:1:bad", true)
  /\ posix_lint (succeeding "/tmp/a.c:1:bad") (open bothPatterns) uri
     = ([EvExec ["sh"; "-c"; "lint"] None; EvStderr (LogSucceeded "int x")],
        Some []).
Proof.
  assert (Hf : files (open bothPatterns) !! uri = Some document)
    by (vm_compute; reflexivity).
  assert (Hu : Posix.fromURI uri = inl "/tmp/a.c") by (vm_compute; reflexivity).
  assert (He : NewErrorformat GoLib.Efm GoLib.NewEfm
                 (LintErrorFormats (configFor (open bothPatterns) uri))
               = Some (efmsOf bothPatterns)) by (vm_compute; reflexivity).
  assert (Hc : succeeding "/tmp/a.c:1:bad"
                 (shell false (LintCommand (configFor (open bothPatterns) uri)))
                 (if LintStdin (configFor (open bothPatterns) uri)
                  then Some (Text document) else None)
               = ("/tmp/a.c:1:bad", true)) by reflexivity.
  split; [exact Hf|]. split; [exact Hu|]. split; [exact Hc|].
  exact (posix lint_zero_exit_status (succeeding "/tmp/a.c:1:bad")
               _ uri _ _ _ _ Hf Hu He Hc).
Defined.

Lemma lint_without_patterns_witness :
  files (open unsetPatterns) !! uri = Some document
  /\ Posix.fromURI uri = inl "/tmp/a.c"
  /\ slice_elems (LintErrorFormats (configFor (open unsetPatterns) uri)) = []
  /\ snd (posix_lint (failing "lint" "/tmp/a.c:1:bad") (open unsetPatterns) uri)
     = Some [].
Proof.
  assert (Hf : files (open unsetPatterns) !! uri = Some document)
    by (vm_compute; reflexivity).
  assert (Hu : Posix.fromURI uri = inl "/tmp/a.c") by (vm_compute; reflexivity).
  assert (Hp : slice_elems (LintErrorFormats (configFor (open unsetPatterns) uri))
               = []) by (vm_compute; reflexivity).
  split; [exact Hf|]. split; [exact Hu|]. split; [exact Hp|].
  exact (posix lint_without_patterns (failing "lint" "/tmp/a.c:1:bad")
               _ uri _ _ Hf Hu Hp).
Defined.

Lemma lint_unmatched_output_witness :
  files (open (config ["%f:%l:%m"] false 0)) !! uri = Some document
  /\ Posix.fromURI uri = inl "/tmp/a.c"
  /\ (forall line ef,
        line ∈ Split_lines "lint: 2 problems" ->
        ef ∈ efmsOf (config ["%f:%l:%m"] false 0) ->
        GoLib.Match ef line = None)
  /\ posix_lint (failing "lint" "lint: 2 problems")
       (open (config ["%f:%l:%m"] false 0)) uri
     = ([EvExec ["sh"; "-c"; "lint"] None], Some []).
Proof.
  assert (Hf : files (open (config ["%f:%l:%m"] false 0)) !! uri = Some document)
    by (vm_compute; reflexivity).
  assert (Hu : Posix.fromURI uri = inl "/tmp/a.c") by (vm_compute; reflexivity).
  assert (He : NewErrorformat GoLib.Efm GoLib.NewEfm
                 (LintErrorFormats
                    (configFor (open (config ["%f:%l:%m"] false 0)) uri))
               = Some (efmsOf (config ["%f:%l:%m"] false 0)))
    by (vm_compute; reflexivity).
  assert (Hc : failing "lint" "lint: 2 problems"
                 (shell false
                    (LintCommand
                       (configFor (open (config ["%f:%l:%m"] false 0)) uri)))
                 (if LintStdin (configFor (open (config ["%f:%l:%m"] false 0)) uri)
                  then Some (Text document) else None)
               = ("lint: 2 problems", false)) by (vm_compute; reflexivity).
  assert (Hnone : forall line ef,
            line ∈ Split_lines "lint: 2 problems" ->
            ef ∈ efmsOf (config ["%f:%l:%m"] false 0) ->
            GoLib.Match ef line = None).
  { intros line ef Hline Hef.
    apply list_elem_of_singleton in Hline. apply list_elem_of_singleton in Hef.
    subst. vm_compute. reflexivity. }
  split; [exact Hf|]. split; [exact Hu|]. split; [exact Hnone|].
  exact (posix lint_unmatched_output (failing "lint" "lint: 2 problems")
               _ uri _ _ _ _ Hf Hu He Hc Hnone).
Defined.
Lemma lint_diagnostics_bound_witness :
  files (open bothPatterns) !! uri = Some document
  /\ Posix.fromURI uri = inl "/tmp/a.c"
  /\ exists ds,
       snd (posix_lint (failing "lint" "/tmp/a.c:1:2:bad") (open bothPatterns) uri)
       = Some ds
       /\ (length ds <= length (Split_lines "/tmp/a.c:1:2:bad") * 2)%nat.
Proof.
  assert (Hf : files (open bothPatterns) !! uri = Some document)
    by (vm_compute; reflexivity).
  assert (Hu : Posix.fromURI uri = inl "/tmp/a.c") by (vm_compute; reflexivity).
  assert (He : NewErrorformat GoLib.Efm GoLib.NewEfm
                 (LintErrorFormats (configFor (open bothPatterns) uri))
               = Some (efmsOf bothPatterns)) by (vm_compute; reflexivity).
  assert (Hc : failing "lint" "/tmp/a.c:1:2:bad"
                 (shell false (LintCommand (configFor (open bothPatterns) uri)))
                 (if LintStdin (configFor (open bothPatterns) uri)
                  then Some (Text document) else None)
               = ("/tmp/a.c:1:2:bad", false)) by (vm_compute; reflexivity).
  split; [exact Hf|]. split; [exact Hu|].
  exact (posix lint_diagnostics_bound (failing "lint" "/tmp/a.c:1:2:bad")
               _ uri _ _ _ _ _ Hf Hu He Hc).
Defined.

Lemma lint_output_order_witness :
  files (open (config ["%f:%l:%m"] false 0)) !! uri = Some document
  /\ Posix.fromURI uri = inl "/tmp/a.c"
  /\ snd (posix_lint (failing "lint" "/tmp/a.c:7:late") 
            (open (config ["%f:%l:%m"] false 0)) uri)
     = Some [at_ 6 0 "late"]
  /\ snd (posix_lint (failing "lint" "/tmp/a.c:2:early")
            (open (config ["%f:%l:%m"] false 0)) uri)
     = Some [at_ 1 0 "early"]
  /\ snd (posix_lint (failing "lint" "/tmp/a.c:7:late
/tmp/a.c:2:early")
            (open (config ["%f:%l:%m"] false 0)) uri)
     = Some [at_ 6 0 "late"; at_ 1 0 "early"].
Proof.
  assert (Hf : files (open (config ["%f:%l:%m"] false 0)) !! uri = Some document)
    by (vm_compute; reflexivity).
  assert (Hu : Posix.fromURI uri = inl "/tmp/a.c") by (vm_compute; reflexivity).
  assert (He : NewErrorformat GoLib.Efm GoLib.NewEfm
                 (LintErrorFormats
                    (configFor (open (config ["%f:%l:%m"] false 0)) uri))
               = Some (efmsOf (config ["%f:%l:%m"] false 0)))
    by (vm_compute; reflexivity).
  destruct (lint_output_order false GoLib.ToLower (GoLib.Abs wd)
              GoLib.ParseRequestURI GoLib.Efm GoLib.NewEfm GoLib.Match
              (failing "lint" "/tmp/a.c:7:late")
              (failing "lint" "/tmp/a.c:2:early")
              (failing "lint" "/tmp/a.c:7:late
/tmp/a.c:2:early")
              (open (config ["%f:%l:%m"] false 0)) uri document "/tmp/a.c"
              (efmsOf (config ["%f:%l:%m"] false 0))
              "/tmp/a.c:7:late" "/tmp/a.c:2:early"
              Hf Hu He eq_refl eq_refl eq_refl)
    as (ds1 & ds2 & H1 & H2 & H12).
  split; [exact Hf|]. split; [exact Hu|].
  assert (E1 : ds1 = [at_ 6 0 "late"]).
  { assert (H : Some ds1 = Some [at_ 6 0 "late"])
      by (rewrite <- H1; vm_compute; reflexivity).
    by injection H. }
  assert (E2 : ds2 = [at_ 1 0 "early"]).
  { assert (H : Some ds2 = Some [at_ 1 0 "early"])
      by (rewrite <- H2; vm_compute; reflexivity).
    by injection H. }
  subst ds1 ds2. split; [exact H1|]. split; [exact H2|]. exact H12.
Defined.

Lemma lint_column_not_negative_witness :
  (forall ef line m, GoLib.Match ef line = Some m -> 0 <= C m <= int_max)
  /\ snd (posix_lint (failing "lint" "/tmp/a.c:4:1:bad")
            (open (config ["%f:%l:%c:%m"] false 0)) uri)
     = Some [at_ 3 0 "bad"]
  /\ 0 <= Character (Start (Range_ (at_ 3 0 "bad"))).
Proof.
  assert (Hs : snd (posix_lint (failing "lint" "/tmp/a.c:4:1:bad")
                      (open (config ["%f:%l:%c:%m"] false 0)) uri)
               = Some [at_ 3 0 "bad"]) by (vm_compute; reflexivity).
  split; [exact Match_column|]. split; [exact Hs|].
  exact (proj1 (posix lint_column_not_negative (failing "lint" "/tmp/a.c:4:1:bad")
                      _ uri _ _ Match_column Hs (list_elem_of_here _ _))).
Defined.

Lemma lint_ignores_text_without_stdin_witness :
  files (open bothPatterns) !! uri = Some document
  /\ LintStdin (configFor (open bothPatterns) uri) = false
  /\ snd (posix_lint (failing "lint" "/tmp/a.c:1:bad")
            (fst (updateFile (open bothPatterns) uri "int y")) uri)
     = snd (posix_lint (failing "lint" "/tmp/a.c:1:bad") (open bothPatterns) uri).
Proof.
  assert (Hf : files (open bothPatterns) !! uri = Some document)
    by (vm_compute; reflexivity).
  assert (Hstdin : LintStdin (configFor (open bothPatterns) uri) = false)
    by (vm_compute; reflexivity).
  split; [exact Hf|]. split; [exact Hstdin|].
  exact (proj1 (posix lint_ignores_text_without_stdin
                      (failing "lint" "/tmp/a.c:1:bad")
                      _ uri "int y" _ Hf Hstdin)).
Defined.

Lemma lint_stdin_is_latest_text_witness :
  files (open (config ["%f:%l:%m"] true 0)) !! uri = Some document
  /\ Posix.fromURI uri = inl "/tmp/a.c"
  /\ LintStdin (configFor (open (config ["%f:%l:%m"] true 0)) uri) = true
  /\ exists logs,
       fst (posix_lint (failing "lint" "stdin:1:bad")
              (fst (updateFile (open (config ["%f:%l:%m"] true 0)) uri "int y"))
              uri)
       = EvExec ["sh"; "-c"; "lint"] (Some "int y") :: logs.
Proof.
  assert (Hf : files (open (config ["%f:%l:%m"] true 0)) !! uri = Some document)
    by (vm_compute; reflexivity).
  assert (Hu : Posix.fromURI uri = inl "/tmp/a.c") by (vm_compute; reflexivity).
  assert (He : NewErrorformat GoLib.Efm GoLib.NewEfm
                 (LintErrorFormats
                    (configFor (open (config ["%f:%l:%m"] true 0)) uri))
               = Some (efmsOf (config ["%f:%l:%m"] true 0)))
    by (vm_compute; reflexivity).
  assert (Hstdin : LintStdin (configFor (open (config ["%f:%l:%m"] true 0)) uri)
                   = true) by (vm_compute; reflexivity).
  split; [exact Hf|]. split; [exact Hu|]. split; [exact Hstdin|].
  exact (posix lint_stdin_is_latest_text (failing "lint" "stdin:1:bad")
               _ uri "int y" _ _ _ Hf Hu He Hstdin).
Defined.

Lemma linter_serves_every_request_witness :
  closed (request twoPending) = false
  /\ rtc (posix_step (failing "lint" "/tmp/a.c:1:bad"))
         {| hdl := twoPending; wrk := WRecv; trace := [] |}
         (posix_linter (failing "lint" "/tmp/a.c:1:bad") 2
            {| hdl := twoPending; wrk := WRecv; trace := [] |})
  /\ (forall s',
        ~ posix_step (failing "lint" "/tmp/a.c:1:bad")
            (posix_linter (failing "lint" "/tmp/a.c:1:bad") 2
               {| hdl := twoPending; wrk := WRecv; trace := [] |}) s')
  /\ exists order,
       order ≡ₚ [uri; uri]
       /\ trace (posix_linter (failing "lint" "/tmp/a.c:1:bad") 2
                   {| hdl := twoPending; wrk := WRecv; trace := [] |})
          = concat (map (fun u =>
                           fst (posix_lint (failing "lint" "/tmp/a.c:1:bad")
                                  twoPending u)
                           ++ [EvNotify u
                                 (snd (posix_lint
                                         (failing "lint" "/tmp/a.c:1:bad")
                                         twoPending u))])
                        order).
Proof.
  assert (Hcl : closed (request twoPending) = false) by (vm_compute; reflexivity).
  assert (Hrtc : rtc (posix_step (failing "lint" "/tmp/a.c:1:bad"))
                   {| hdl := twoPending; wrk := WRecv; trace := [] |}
                   (posix_linter (failing "lint" "/tmp/a.c:1:bad") 2
                      {| hdl := twoPending; wrk := WRecv; trace := [] |}))
    by apply linter_steps.
  assert (Hterm : forall s',
            ~ posix_step (failing "lint" "/tmp/a.c:1:bad")
                (posix_linter (failing "lint" "/tmp/a.c:1:bad") 2
                   {| hdl := twoPending; wrk := WRecv; trace := [] |}) s').
  { intros s'. apply no_step_when_idle. vm_compute. reflexivity. }
  split; [exact Hcl|]. split; [exact Hrtc|]. split; [exact Hterm|].
  destruct (posix linter_serves_every_request (failing "lint" "/tmp/a.c:1:bad")
              twoPending [] _ Hcl Hrtc Hterm) as (order & Hp & Htr & _).
  exists order. split; [exact Hp|exact Htr].
Defined.

Lemma linter_never_writes_store_witness :
  rtc (posix_step (failing "lint" "/tmp/a.c:1:bad"))
      {| hdl := twoPending; wrk := WRecv; trace := [] |}
      (posix_linter (failing "lint" "/tmp/a.c:1:bad") 1
         {| hdl := twoPending; wrk := WRecv; trace := [] |})
  /\ files (hdl (posix_linter (failing "lint" "/tmp/a.c:1:bad") 1
                   {| hdl := twoPending; wrk := WRecv; trace := [] |}))
     = files twoPending.
Proof.
  assert (Hrtc : rtc (posix_step (failing "lint" "/tmp/a.c:1:bad"))
                   {| hdl := twoPending; wrk := WRecv; trace := [] |}
                   (posix_linter (failing "lint" "/tmp/a.c:1:bad") 1
                      {| hdl := twoPending; wrk := WRecv; trace := [] |}))
    by apply linter_steps.
  split; [exact Hrtc|].
  exact (proj1 (proj2 (posix linter_never_writes_store
                             (failing "lint" "/tmp/a.c:1:bad") _ _ Hrtc))).
Defined.

Lemma linter_exits_when_closed_witness :
  request closedHandler = {| sendq := []; closed := true |}
  /\ posix_step (failing "lint" "")
       {| hdl := closedHandler; wrk := WRecv; trace := [] |}
       {| hdl := closedHandler; wrk := WExit; trace := [] |}.
Proof.
  assert (Hreq : request closedHandler = {| sendq := []; closed := true |})
    by reflexivity.
  split; [exact Hreq|].
  exact (proj1 (posix linter_exits_when_closed (failing "lint" "")
                      closedHandler [] Hreq)).
Defined.

Lemma didOpen_failure_changes_nothing_witness :
  snd (Posix.handleTextDocumentDidOpen Example.Unmarshal (open bothPatterns)
         (Some "{}"))
  = Some ErrUnmarshal
  /\ fst (Posix.handleTextDocumentDidOpen Example.Unmarshal (open bothPatterns)
            (Some "{}"))
     = open bothPatterns.
Proof.
  assert (Herr : snd (Posix.handleTextDocumentDidOpen Example.Unmarshal
                        (open bothPatterns) (Some "{}"))
                 = Some ErrUnmarshal) by reflexivity.
  split; [exact Herr|].
  exact (proj1 (didOpen_failure_changes_nothing Example.Unmarshal
                  (open bothPatterns) (Some "{}") ErrUnmarshal Herr)).
Defined.

Lemma handle_unknown_method_witness :
  Method hoverRequest <> "initialize"
  /\ Example.handle empty hoverRequest
     = (empty,
        Some (ErrMethodNotFound "method not supported: textDocument/hover")).
Proof.
  assert (H1 : Method hoverRequest <> "initialize") by discriminate.
  split; [exact H1|].
  exact (handle_unknown_method Example.Unmarshal otherHandler otherHandler
           otherHandler otherHandler otherHandler empty hoverRequest
           H1 ltac:(discriminate) ltac:(discriminate) ltac:(discriminate)
           ltac:(discriminate) ltac:(discriminate)).
Defined.

End MoreRuns.
